(** * bawei V2: job store and background orchestrator

    A shallow embedding of [src/shared/article-data-manager.ts] (the job
    store kept in [chrome.storage.local]) and of the V2 message handlers of
    the background script (start, channel update, stop), followed by the
    properties of the orchestration layer.

    Conventions of the embedding.
    - [chrome.storage.local] is a finite map from string keys to stored
      values; [Object.entries] is [map_to_list].
    - The three in-memory [Map]s of the background script are the fields of
      [Sys]; a handler takes the system before the message and returns the
      system after it, the messages it sent to tabs, and its response.
    - [Date.now()] is an argument [now] of every function that reads the
      clock; one handler run uses one reading.
    - [crypto.randomUUID()] and [chrome.tabs.create] are arguments of the
      start handler (the fresh id, and an oracle giving the outcome of
      opening a tab).
    - JavaScript truthiness is written out: a number is truthy when it is
      present and not [0], a string when it is not empty.
    - A state map ([Record<ChannelId, ChannelRuntimeState>]) is a finite
      map; it behaves as the object the code indexes for every channel id
      that is not the name of a property of [Object.prototype], and so for
      the ten supported ids.
    - The outcome of [chrome.tabs.create] is a function of the url and the
      flag of the call, so a channel id listed twice in one start gets the
      same outcome twice.
    - Calls to [chrome.storage.local] are taken to succeed. A failing
      [chrome.tabs.sendMessage] is caught where these handlers call it and
      changes no state, so a sent message is recorded as an [Event]
      whether or not it is delivered. *)

From Stdlib Require Import ZArith String Ascii List.
From stdpp Require Import gmap strings list fin_maps sorting.

Local Open Scope string_scope.
Local Open Scope Z_scope.

(** ** Data model ([src/shared/v2-types.ts]) *)

(** [ChannelId] is a string at run time; the ten supported ids are listed
    in [ALL_CHANNELS] below. *)
Abbreviation ChannelId := string (only parsing).

Inductive PublishAction := draft | publish.

Inductive ChannelStage :=
  | init | openEntry | detectLogin | fillSourceUrl | fillTitle | fillContent
  | saveDraft | submitPublish | confirmSuccess | waitingUser | stage_done.

Inductive ChannelResultStatus :=
  | not_started | running | success | failed | waiting_user.

Record ArticlePayload := {
  title : string;
  contentHtml : string;
  sourceUrl : string;
  author : option string;
  publishTime : option string;
  coverUrl : option string
}.

Record PublishJob := {
  jobId : string;
  createdAt : Z;
  action : PublishAction;
  article : ArticlePayload;
  channels : option (list ChannelId);
  sourceTabId : option Z;
  stoppedAt : option Z
}.

Record ChannelRuntimeState := {
  channelId : ChannelId;
  status : ChannelResultStatus;
  stage : option ChannelStage;
  userMessage : option string;
  userSuggestion : option string;
  devDetails : option string;
  updatedAt : Z;
  tabId : option Z
}.

(** [Partial<ChannelRuntimeState>]: a field is either absent or carries a
    value. *)
Record ChannelPatch := {
  p_channelId : option ChannelId;
  p_status : option ChannelResultStatus;
  p_stage : option ChannelStage;
  p_userMessage : option string;
  p_userSuggestion : option string;
  p_devDetails : option string;
  p_updatedAt : option Z;
  p_tabId : option Z
}.

Definition empty_patch : ChannelPatch :=
  {| p_channelId := None; p_status := None; p_stage := None;
     p_userMessage := None; p_userSuggestion := None; p_devDetails := None;
     p_updatedAt := None; p_tabId := None |}.

(** [Record<ChannelId, ChannelRuntimeState>] *)
Abbreviation StoredJobState := (gmap string ChannelRuntimeState) (only parsing).

(** Truthiness of an optional number and of a string. *)
Definition truthy (o : option Z) : bool :=
  match o with
  | Some z => negb (z =? 0)
  | None => false
  end.

Definition nonempty (s : string) : bool :=
  match s with
  | EmptyString => false
  | String _ _ => true
  end.

(** [a || b] on optional numbers. *)
Definition or_else (a b : option Z) : option Z :=
  if truthy a then a else b.

(** [x || 0] on a number. *)
Definition or0 (x : Z) : Z := if x =? 0 then 0 else x.

(** ** String helpers: [startsWith] and [slice] *)

Fixpoint startsWith (s p : string) {struct p} : bool :=
  match p with
  | EmptyString => true
  | String c p' =>
      match s with
      | EmptyString => false
      | String d s' => if Ascii.eqb c d then startsWith s' p' else false
      end
  end.

Fixpoint slice (s : string) (n : nat) {struct n} : string :=
  match n with
  | O => s
  | S n' =>
      match s with
      | EmptyString => EmptyString
      | String _ s' => slice s' n'
      end
  end.

(** ** The job store ([src/shared/article-data-manager.ts]) *)

Module Store.

Inductive StoredValue :=
  | VJob (j : PublishJob)
  | VState (s : StoredJobState)
  | VOther (raw : string).

(** The content of [chrome.storage.local]. *)
Abbreviation storage := (gmap string StoredValue) (only parsing).

Definition JOB_KEY_PREFIX : string := "bawei_v2_job_".
Definition STATE_KEY_PREFIX : string := "bawei_v2_state_".

Definition EXPIRY_TIME : Z := 24 * 60 * 60 * 1000.
Definition MAX_STORED_JOBS : nat := 20.

Definition jobKey (jobId : string) : string := JOB_KEY_PREFIX +:+ jobId.
Definition stateKey (jobId : string) : string := STATE_KEY_PREFIX +:+ jobId.

(** [chrome.storage.local.remove(keys)] *)
Definition storage_remove (keys : list string) (st : storage) : storage :=
  foldr delete st keys.

(** The [createdAt] read off a stored value ([0] when it has none). *)
Definition createdAt_of (v : StoredValue) : Z :=
  match v with
  | VJob j => createdAt j
  | _ => 0
  end.

(** [(result[jobKey(jobId)] as PublishJob) || null]. Job keys only ever
    receive jobs (from [storeJobData]) and state keys state maps (from
    [storeJobState]); a value of another shape under such a key is read as
    an absent record. *)
Definition getJobData (jobId : string) (st : storage) : option PublishJob :=
  match st !! jobKey jobId with
  | Some (VJob j) => Some j
  | _ => None
  end.

Definition storeJobState (jobId : string) (state : StoredJobState)
    (st : storage) : storage :=
  <[stateKey jobId := VState state]> st.

Definition getJobState (jobId : string) (st : storage)
    : option StoredJobState :=
  match st !! stateKey jobId with
  | Some (VState s) => Some s
  | _ => None
  end.

Definition deleteJob (jobId : string) (st : storage) : storage :=
  storage_remove [jobKey jobId; stateKey jobId] st.

(** The test of [cleanExpiredData] on one job. *)
Definition is_expired (now c : Z) : bool :=
  negb (c =? 0) && (EXPIRY_TIME <? now - c).

Definition expired_keys_of (now : Z) (kv : string * StoredValue)
    : list string :=
  if startsWith kv.1 JOB_KEY_PREFIX && is_expired now (createdAt_of kv.2)
  then [kv.1; stateKey (slice kv.1 (String.length JOB_KEY_PREFIX))]
  else [].

Definition expiredKeys (now : Z) (st : storage) : list string :=
  flat_map (expired_keys_of now) (map_to_list st).

(** Returns the store after the sweep and the number of removed keys. *)
Definition cleanExpiredData (now : Z) (st : storage) : storage * nat :=
  let keys := expiredKeys now st in
  (storage_remove keys st, length keys).

(** [Array.prototype.sort] with the comparator
    [(a, b) => (b.job.createdAt || 0) - (a.job.createdAt || 0)]:
    descending by [createdAt], stable. *)
Fixpoint sort_insert (e : string * StoredValue)
    (l : list (string * StoredValue)) : list (string * StoredValue) :=
  match l with
  | [] => [e]
  | x :: l' =>
      if or0 (createdAt_of x.2) - or0 (createdAt_of e.2) <=? 0
      then e :: x :: l'
      else x :: sort_insert e l'
  end.

Definition sort_jobs (l : list (string * StoredValue))
    : list (string * StoredValue) :=
  foldr sort_insert [] l.

Definition job_entries (st : storage) : list (string * StoredValue) :=
  filter (λ kv, startsWith kv.1 JOB_KEY_PREFIX = true) (map_to_list st).

Definition evicted_keys_of (kv : string * StoredValue) : list string :=
  [kv.1; stateKey (slice kv.1 (String.length JOB_KEY_PREFIX))].

Definition limitStoredJobs (st : storage) : storage :=
  let jobs := sort_jobs (job_entries st) in
  if (length jobs <=? MAX_STORED_JOBS)%nat then st
  else storage_remove (flat_map evicted_keys_of (drop MAX_STORED_JOBS jobs)) st.

Definition storeJobData (now : Z) (job : PublishJob) (st : storage)
    : storage :=
  limitStoredJobs (cleanExpiredData now (<[jobKey (jobId job) := VJob job]> st)).1.

(** [None] stands for the thrown [Error('Job not found')]. *)
Definition markJobStopped (jobId0 : string) (stoppedAt0 : Z) (now : Z)
    (st : storage) : option storage :=
  match getJobData jobId0 st with
  | None => None
  | Some job =>
      Some (storeJobData now
              {| jobId := jobId job; createdAt := createdAt job;
                 action := action job; article := article job;
                 channels := channels job; sourceTabId := sourceTabId job;
                 stoppedAt := Some stoppedAt0 |} st)
  end.

(** Number of job records in the store. *)
Definition job_count (st : storage) : nat := length (job_entries st).

End Store.

(** ** The background orchestrator (V2 message handlers) *)

Module Orchestrator.
Import Store.

Definition ALL_CHANNELS : list ChannelId :=
  [ "csdn"; "tencent-cloud-dev"; "cnblogs"; "oschina"; "woshipm";
    "mowen"; "sspai"; "baijiahao"; "toutiao"; "feishu-docs" ].

(** [ALL_CHANNELS.includes(c)] *)
Definition includes (l : list ChannelId) (c : ChannelId) : bool :=
  existsb (String.eqb c) l.

(** [nowState(channelId)], without a patch. *)
Definition nowState (now : Z) (c : ChannelId) : ChannelRuntimeState :=
  {| channelId := c; status := not_started; stage := None;
     userMessage := None; userSuggestion := None; devDetails := None;
     updatedAt := now; tabId := None |}.

Definition buildInitialState (now : Z) : StoredJobState :=
  <["csdn" := nowState now "csdn"]>
  (<["tencent-cloud-dev" := nowState now "tencent-cloud-dev"]>
  (<["cnblogs" := nowState now "cnblogs"]>
  (<["oschina" := nowState now "oschina"]>
  (<["woshipm" := nowState now "woshipm"]>
  (<["mowen" := nowState now "mowen"]>
  (<["sspai" := nowState now "sspai"]>
  (<["baijiahao" := nowState now "baijiahao"]>
  (<["toutiao" := nowState now "toutiao"]>
  (<["feishu-docs" := nowState now "feishu-docs"]> ∅))))))))).

(** The in-memory maps of the background script and the persistent store. *)
Record Sys := {
  store : storage;
  tabIdToContext : gmap Z (string * ChannelId);
  jobIdToSourceTabId : gmap string Z;
  jobStateCache : gmap string StoredJobState
}.

(** Messages and calls that leave the background script. *)
Inductive Event :=
  | TabCreate (url : string) (active : bool)
  | JobBroadcast (tab : Z) (jobId0 : string)
      (channels0 : option (list ChannelId)) (state : StoredJobState)
  | StopSignal (tab : Z) (jobId0 : string).

(** [{ success, jobId?, error? }] *)
Record Response := {
  r_success : bool;
  r_jobId : option string;
  r_error : option string
}.

Definition ok : Response :=
  {| r_success := true; r_jobId := None; r_error := None |}.
Definition ok_job (j : string) : Response :=
  {| r_success := true; r_jobId := Some j; r_error := None |}.
Definition err (e : string) : Response :=
  {| r_success := false; r_jobId := None; r_error := Some e |}.

Definition broadcastJobState (jobId0 : string) (s : Sys) : list Event :=
  match jobIdToSourceTabId s !! jobId0, jobStateCache s !! jobId0 with
  | Some tab, Some state =>
      if truthy (Some tab)
      then [JobBroadcast tab jobId0
              (getJobData jobId0 (store s) ≫= channels) state]
      else []
  | _, _ => []
  end.

(** *** StartJob *)

Record StartJobRequest := {
  m_action : PublishAction;
  m_focusChannel : ChannelId;
  m_channels : option (list ChannelId);
  m_article : option ArticlePayload
}.

(** Outcome of [chrome.tabs.create]: a tab (whose id may be missing) or a
    rejected promise. *)
Inductive TabResult :=
  | TabCreated (id : option Z)
  | TabCreateFailed (e : string).

Definition entryUrls (c : ChannelId) : string :=
  if String.eqb c "csdn" then "https://mp.csdn.net/mp_blog/creation/editor"
  else if String.eqb c "tencent-cloud-dev" then "https://cloud.tencent.com/developer/article/write"
  else if String.eqb c "cnblogs" then "https://i.cnblogs.com/posts/edit"
  else if String.eqb c "oschina" then "https://www.oschina.net/blog/write"
  else if String.eqb c "woshipm" then "https://www.woshipm.com/writing"
  else if String.eqb c "mowen" then "https://note.mowen.cn/editor"
  else if String.eqb c "sspai" then "https://sspai.com/write"
  else if String.eqb c "baijiahao" then "https://baijiahao.baidu.com/builder/rc/edit?type=news&is_from_cms=1"
  else if String.eqb c "toutiao" then "https://mp.toutiao.com/profile_v4/graphic/publish"
  else if String.eqb c "feishu-docs" then "https://wuxinxuexi.feishu.cn/drive/folder/PyWAfSFwrlMgiydvlHectMn2nSd"
  else "".

(** The selection of line 203: the requested list when it is a non-empty
    array, all channels otherwise, filtered by [ALL_CHANNELS.includes]. *)
Definition channelsToRun (requested : option (list ChannelId))
    : list ChannelId :=
  List.filter (includes ALL_CHANNELS)
    (match requested with
     | Some (c :: l) => c :: l
     | _ => ALL_CHANNELS
     end).

(** The state written for a channel whose tab was opened. *)
Definition mark_running (now tab : Z) (prev : ChannelRuntimeState)
    : ChannelRuntimeState :=
  {| channelId := channelId prev; status := running; stage := Some openEntry;
     userMessage := userMessage prev; userSuggestion := userSuggestion prev;
     devDetails := devDetails prev; updatedAt := now; tabId := Some tab |}.

(** What the callbacks of [channelsToRun.map] have done once all of them
    have settled: the registry, the state object (shared with the cache),
    and the rejection that [Promise.all] reports, if any. The callbacks
    write to different channels, so the order in which they finish does not
    show in the state; they are run here in list order, and the rejection
    kept is the first in that order. *)
Record Spawned := {
  sp_ctx : gmap Z (string * ChannelId);
  sp_state : StoredJobState;
  sp_error : option string
}.

Section spawn.
Variable tabs_create : string → bool → TabResult.
Variables (jid : string) (now : Z) (focus : ChannelId).

(** One callback of the [map] at lines 241-255. *)
Definition spawn_one (acc : Spawned) (c : ChannelId) : Spawned :=
  match tabs_create (entryUrls c) (String.eqb c focus) with
  | TabCreateFailed e =>
      {| sp_ctx := sp_ctx acc; sp_state := sp_state acc;
         sp_error := match sp_error acc with
                     | Some e0 => Some e0
                     | None => Some e
                     end |}
  | TabCreated id =>
      match id with
      | Some tab =>
          if truthy (Some tab)
          then {| sp_ctx := <[tab := (jid, c)]> (sp_ctx acc);
                  sp_state := alter (mark_running now tab) c (sp_state acc);
                  sp_error := sp_error acc |}
          else acc
      | None => acc
      end
  end.

Definition spawn_all (ctx : gmap Z (string * ChannelId))
    (initialState : StoredJobState) (cs : list ChannelId) : Spawned :=
  foldl spawn_one
    {| sp_ctx := ctx; sp_state := initialState; sp_error := None |} cs.

(** Every callback calls [chrome.tabs.create] before it first awaits. *)
Definition spawn_events (cs : list ChannelId) : list Event :=
  map (λ c, TabCreate (entryUrls c) (String.eqb c focus)) cs.
End spawn.

Definition valid_article (a : option ArticlePayload) : option ArticlePayload :=
  match a with
  | Some a0 =>
      if nonempty (title a0) && nonempty (contentHtml a0)
         && nonempty (sourceUrl a0)
      then Some a0 else None
  | None => None
  end.

(** [sender] is [sender.tab?.id]. The cache holds the very object the
    spawn callbacks update, so the cache shows their writes on both
    outcomes; the store and the broadcast only on success. *)
Definition handleV2StartJob (tabs_create : string → bool → TabResult)
    (jid : string) (now : Z) (message : StartJobRequest)
    (sender : option Z) (s : Sys) : Sys * list Event * Response :=
  match valid_article (m_article message) with
  | None => (s, [], err "Missing required fields: title/contentHtml/sourceUrl")
  | Some art =>
      let cs := channelsToRun (m_channels message) in
      let job := {| jobId := jid; createdAt := now;
                    action := m_action message; article := art;
                    channels := Some cs; sourceTabId := sender;
                    stoppedAt := None |} in
      let st1 := storeJobData now job (store s) in
      let initialState := buildInitialState now in
      let st2 := storeJobState jid initialState st1 in
      let src := match sender with
                 | Some tab => if truthy (Some tab)
                               then <[jid := tab]> (jobIdToSourceTabId s)
                               else jobIdToSourceTabId s
                 | None => jobIdToSourceTabId s
                 end in
      let sp := spawn_all tabs_create jid now (m_focusChannel message)
                  (tabIdToContext s) initialState cs in
      let creates := spawn_events (m_focusChannel message) cs in
      match sp_error sp with
      | Some e =>
          ({| store := st2; tabIdToContext := sp_ctx sp;
              jobIdToSourceTabId := src;
              jobStateCache := <[jid := sp_state sp]> (jobStateCache s) |},
           creates, err e)
      | None =>
          let s' := {| store := storeJobState jid (sp_state sp) st2;
                       tabIdToContext := sp_ctx sp;
                       jobIdToSourceTabId := src;
                       jobStateCache :=
                         <[jid := sp_state sp]> (jobStateCache s) |} in
          (s', (creates ++ broadcastJobState jid s')%list, ok_job jid)
      end
  end.

(** *** ChannelUpdate *)

Record ChannelUpdate := {
  u_jobId : string;
  u_channelId : ChannelId;
  u_patch : option ChannelPatch
}.

(** [{ ...prev, ...patch, channelId, updatedAt: Date.now(),
       tabId: sender.tab?.id || prev.tabId }] *)
Definition merge_state (prev : ChannelRuntimeState) (patch : ChannelPatch)
    (c : ChannelId) (now : Z) (sender : option Z) : ChannelRuntimeState :=
  {| channelId := c;
     status := default (status prev) (p_status patch);
     stage := match p_stage patch with
              | Some x => Some x
              | None => stage prev
              end;
     userMessage := match p_userMessage patch with
                    | Some x => Some x
                    | None => userMessage prev
                    end;
     userSuggestion := match p_userSuggestion patch with
                       | Some x => Some x
                       | None => userSuggestion prev
                       end;
     devDetails := match p_devDetails patch with
                   | Some x => Some x
                   | None => devDetails prev
                   end;
     updatedAt := now;
     tabId := or_else sender (tabId prev) |}.

(** [jobStateCache.get(jobId) || (await getJobState(jobId)) ||
     buildInitialState()] *)
Definition current_state (now : Z) (jobId0 : string) (s : Sys)
    : StoredJobState :=
  match jobStateCache s !! jobId0 with
  | Some m => m
  | None =>
      match getJobState jobId0 (store s) with
      | Some m => m
      | None => buildInitialState now
      end
  end.

Definition is_stopped (jobId0 : string) (st : storage) : bool :=
  match getJobData jobId0 st with
  | Some job => truthy (stoppedAt job)
  | None => false
  end.

Definition handleV2ChannelUpdate (now : Z) (message : ChannelUpdate)
    (sender : option Z) (s : Sys) : Sys * list Event * Response :=
  let jobId0 := u_jobId message in
  let c := u_channelId message in
  let patch := default empty_patch (u_patch message) in
  if negb (nonempty jobId0) || negb (nonempty c)
  then (s, [], err "Missing jobId/channelId")
  else if is_stopped jobId0 (store s) then (s, [], ok)
  else
    let current := current_state now jobId0 s in
    let prev := default (nowState now c) (current !! c) in
    let next := merge_state prev patch c now sender in
    let current' := <[c := next]> current in
    let s' := {| store := storeJobState jobId0 current' (store s);
                 tabIdToContext := tabIdToContext s;
                 jobIdToSourceTabId := jobIdToSourceTabId s;
                 jobStateCache := <[jobId0 := current']> (jobStateCache s) |} in
    (s', broadcastJobState jobId0 s', ok).

(** *** RequestStop *)

(** The stop messages of lines 338-348, one per channel with a known tab. *)
Definition stop_signals (jobId0 : string) (state : option StoredJobState)
    : list Event :=
  flat_map (λ c : ChannelId,
      match (state ≫= (λ m : StoredJobState, m !! c)) ≫= tabId with
      | Some tab => if truthy (Some tab) then [StopSignal tab jobId0] else []
      | None => []
      end) ALL_CHANNELS.

Definition handleV2StopJob (now : Z) (jobId0 : string) (s : Sys)
    : Sys * list Event * Response :=
  if negb (nonempty jobId0) then (s, [], err "Missing jobId")
  else
    match getJobData jobId0 (store s) with
    | None => (s, [], err "Job not found")
    | Some job =>
        if truthy (stoppedAt job) then (s, [], ok)
        else
          match markJobStopped jobId0 now now (store s) with
          | None => (s, [], err "Job not found")
          | Some st' =>
              let state := match jobStateCache s !! jobId0 with
                           | Some m => Some m
                           | None => getJobState jobId0 st'
                           end in
              ({| store := st'; tabIdToContext := tabIdToContext s;
                  jobIdToSourceTabId := jobIdToSourceTabId s;
                  jobStateCache := jobStateCache s |},
               stop_signals jobId0 state, ok)
          end
    end.

(** *** GetContext *)

(** [GetContextResponse]: the job and the channel of the asking tab, or an
    error. *)
Inductive ContextResponse :=
  | ContextOk (job : PublishJob) (channelId0 : ChannelId)
  | ContextError (e : string).

(** [sender] is [sender.tab?.id]. *)
Definition handleV2GetContext (sender : option Z) (s : Sys)
    : ContextResponse :=
  match sender with
  | Some tab =>
      if truthy (Some tab) then
        match tabIdToContext s !! tab with
        | None => ContextError "No context for this tab"
        | Some ctx =>
            match getJobData ctx.1 (store s) with
            | None => ContextError "Job not found"
            | Some job => ContextOk job ctx.2
            end
        end
      else ContextError "No sender tab id"
  | None => ContextError "No sender tab id"
  end.

(** *** RequestContinue and RequestRetry *)

Inductive ControlKind := Continue | Retry.

Record ControlRequest := {
  c_kind : ControlKind;
  c_jobId : string;
  c_channelId : ChannelId
}.

(** [tabs_sendMessage tab message] is the outcome of
    [chrome.tabs.sendMessage]: [None] when the promise resolves, the error
    message when it rejects. The handler changes no state; it returns the
    message it handed to [chrome.tabs.sendMessage], with the tab it was
    addressed to, and its response. *)
Definition handleV2Control
    (tabs_sendMessage : Z → ControlRequest → option string)
    (message : ControlRequest) (s : Sys)
    : option (Z * ControlRequest) * Response :=
  let jobId0 := c_jobId message in
  let c := c_channelId message in
  if negb (nonempty jobId0) || negb (nonempty c)
  then (None, err "Missing jobId/channelId")
  else if is_stopped jobId0 (store s)
  then (None, err "Job has been stopped")
  else
    let state := match jobStateCache s !! jobId0 with
                 | Some m => Some m
                 | None => getJobState jobId0 (store s)
                 end in
    match (state ≫= (λ m : StoredJobState, m !! c)) ≫= tabId with
    | Some tab =>
        if truthy (Some tab) then
          match tabs_sendMessage tab message with
          | None => (Some (tab, message), ok)
          | Some e => (Some (tab, message), err e)
          end
        else (None, err "Channel tab not found")
    | None => (None, err "Channel tab not found")
    end.

End Orchestrator.

(** ** Vocabulary of the statements *)

Module Vocabulary.
Import Store.

(** A job is swept when its record carries a non-zero [createdAt] older
    than the expiry time. *)
Definition swept (now : Z) (st : storage) (jid : string) : bool :=
  match getJobData jid st with
  | Some j => is_expired now (createdAt j)
  | None => false
  end.

(** Newest first. *)
Definition newer_first (a b : string * StoredValue) : Prop :=
  createdAt_of b.2 ≤ createdAt_of a.2.

(** The entries removed and kept by [limitStoredJobs] when the store is
    over the cap. *)
Definition evicted (st : storage) : list (string * StoredValue) :=
  drop MAX_STORED_JOBS (sort_jobs (job_entries st)).

Definition retained (st : storage) : list (string * StoredValue) :=
  take MAX_STORED_JOBS (sort_jobs (job_entries st)).

(** No stored job is past its TTL at [now]. *)
Definition none_expired (now : Z) (st : storage) : bool :=
  forallb (λ kv, negb (is_expired now (createdAt_of kv.2))) (job_entries st).

(** The job records that a sweep at [now] takes out. *)
Definition swept_entries (now : Z) (st : storage)
    : list (string * StoredValue) :=
  List.filter (λ kv, startsWith kv.1 JOB_KEY_PREFIX
                     && is_expired now (createdAt_of kv.2))
    (map_to_list st).

(** A key that belongs to neither kind of record of the job store. *)
Definition foreign_key (k : string) : bool :=
  negb (startsWith k JOB_KEY_PREFIX) && negb (startsWith k STATE_KEY_PREFIX).

Import Orchestrator.

(** The job record that [handleV2StartJob] builds (lines 207-214). *)
Definition job_of_start (jid : string) (now : Z) (message : StartJobRequest)
    (sender : option Z) (art : ArticlePayload) : PublishJob :=
  {| jobId := jid; createdAt := now; action := m_action message;
     article := art; channels := Some (channelsToRun (m_channels message));
     sourceTabId := sender; stoppedAt := None |}.

(** The job record that [markJobStopped] writes back. *)
Definition stopped_job (job : PublishJob) (t : Z) : PublishJob :=
  {| jobId := jobId job; createdAt := createdAt job; action := action job;
     article := article job; channels := channels job;
     sourceTabId := sourceTabId job; stoppedAt := Some t |}.


End Vocabulary.

(** ** Sample data used by the concrete instances below *)

Module Samples.
Import Store Orchestrator.

Definition art : ArticlePayload :=
  {| title := "T"; contentHtml := "<p>x</p>"; sourceUrl := "https://x";
     author := None; publishTime := None; coverUrl := None |}.

Definition job_at (jid : string) (t : Z) : PublishJob :=
  {| jobId := jid; createdAt := t; action := publish; article := art;
     channels := Some ["csdn"; "cnblogs"]; sourceTabId := Some 3;
     stoppedAt := None |}.

Definition stopped_at (jid : string) (t s : Z) : PublishJob :=
  {| jobId := jid; createdAt := t; action := publish; article := art;
     channels := Some ["csdn"; "cnblogs"]; sourceTabId := Some 3;
     stoppedAt := Some s |}.

(** A store holding one job and its state map. *)
Definition store_one (j : PublishJob) : storage :=
  storeJobState (jobId j) (buildInitialState (createdAt j))
    (<[jobKey (jobId j) := VJob j]> ∅).

(** A store holding the listed jobs, each with its state map. *)
Definition store_many (l : list (string * Z)) : storage :=
  foldr (λ p st, storeJobState p.1 (buildInitialState p.2)
                   (<[jobKey p.1 := VJob (job_at p.1 p.2)]> st)) ∅ l.

Definition ids20 : list string :=
  [ "a"; "b"; "c"; "d"; "e"; "f"; "g"; "h"; "i"; "j";
    "k"; "l"; "m"; "n"; "o"; "p"; "q"; "r"; "s"; "t" ].

(** Twenty jobs created at [base], [base + 1], ... *)
Definition twenty_from (base : Z) : list (string * Z) :=
  imap (λ i id, (id, base + Z.of_nat i)) ids20.

Definition day : Z := 24 * 60 * 60 * 1000.

(** Twenty jobs: [a] and [b] two days old at time [3 * day], the others
    created within the last day. *)
Definition two_stale : list (string * Z) :=
  ("a", day) :: ("b", day + 1) :: drop 2 (twenty_from (3 * day - 1000)).

Definition sys_of (st : storage) : Sys :=
  {| store := st; tabIdToContext := ∅; jobIdToSourceTabId := ∅;
     jobStateCache := ∅ |}.

Definition sys0 : Sys := sys_of ∅.

Definition start_msg (cs : option (list ChannelId)) : StartJobRequest :=
  {| m_action := publish; m_focusChannel := "csdn"; m_channels := cs;
     m_article := Some art |}.

(** Every tab opens; its id is derived from the url. *)
Definition tabs_ok (url : string) (active : bool) : TabResult :=
  TabCreated (Some (Z.of_nat (String.length url))).

(** Opening the csdn editor is rejected, the other tabs open. *)
Definition tabs_csdn_fails (url : string) (active : bool) : TabResult :=
  if String.eqb url (entryUrls "csdn")
  then TabCreateFailed "No current window"
  else tabs_ok url active.

(** The system after a successful start of job [J] on csdn and cnblogs
    from source tab 3 at time 1000. *)
Definition sys_started : Sys :=
  (handleV2StartJob tabs_ok "J" 1000
     (start_msg (Some ["csdn"; "cnblogs"])) (Some 3) sys0).1.1.

Definition failed_patch : ChannelPatch :=
  {| p_channelId := None; p_status := Some failed; p_stage := None;
     p_userMessage := Some "login required"; p_userSuggestion := None;
     p_devDetails := None; p_updatedAt := None; p_tabId := None |}.

Definition update_msg (jid : string) (c : ChannelId) : ChannelUpdate :=
  {| u_jobId := jid; u_channelId := c; u_patch := Some failed_patch |}.

(** A store with the job [J], its state map and a record of another
    component. *)
Definition store_mixed : storage :=
  <["copilot_settings" := VOther "{}"]> (store_one (job_at "J" 5000)).

(** Every control message is delivered. *)
Definition send_ok (tab : Z) (m : ControlRequest) : option string := None.

Definition retry_msg (jid : string) (c : ChannelId) : ControlRequest :=
  {| c_kind := Retry; c_jobId := jid; c_channelId := c |}.

Definition waiting_patch : ChannelPatch :=
  {| p_channelId := None; p_status := Some waiting_user;
     p_stage := Some waitingUser; p_userMessage := None;
     p_userSuggestion := Some "scan the QR code"; p_devDetails := None;
     p_updatedAt := None; p_tabId := None |}.

Definition update_with (jid : string) (c : ChannelId) (p : ChannelPatch)
    : ChannelUpdate :=
  {| u_jobId := jid; u_channelId := c; u_patch := Some p |}.
End Samples.

(** * Properties *)

Import Vocabulary.

(** Closed statements about concrete runs are settled by evaluation. *)
Ltac by_evaluation :=
  cbv zeta; repeat apply conj; vm_compute; reflexivity.

(** ** Keys *)

Section keys.
Import Store.

Lemma startsWith_app (p s : string) : startsWith (p +:+ s) p = true.
Proof.
  induction p as [|c p IH]; simpl; [done|].
  by rewrite Ascii.eqb_refl.
Qed.

Lemma slice_app (p s : string) : slice (p +:+ s) (String.length p) = s.
Proof. induction p as [|c p IH]; simpl; done. Qed.

Lemma startsWith_split (s p : string) :
  startsWith s p = true → s = p +:+ slice s (String.length p).
Proof.
  revert s. induction p as [|c p IH]; intros s H; simpl in *; [done|].
  destruct s as [|d s]; [done|].
  destruct (Ascii.eqb c d) eqn:E; [|done].
  apply Ascii.eqb_eq in E as ->.
  change (String d p +:+ ?x) with (String d (p +:+ x)). f_equal. by apply IH.
Qed.

Lemma jobKey_is_job (j : string) : startsWith (jobKey j) JOB_KEY_PREFIX = true.
Proof. apply startsWith_app. Qed.

Lemma jobKey_slice (j : string) :
  slice (jobKey j) (String.length JOB_KEY_PREFIX) = j.
Proof. apply slice_app. Qed.

Lemma job_key_inv (k : string) :
  startsWith k JOB_KEY_PREFIX = true →
  k = jobKey (slice k (String.length JOB_KEY_PREFIX)).
Proof. apply startsWith_split. Qed.

Lemma stateKey_not_job (j : string) :
  startsWith (stateKey j) JOB_KEY_PREFIX = false.
Proof. reflexivity. Qed.

Lemma jobKey_inj (a b : string) : jobKey a = jobKey b → a = b.
Proof.
  intros H. rewrite <- (jobKey_slice a), <- (jobKey_slice b). by rewrite H.
Qed.

Lemma stateKey_inj (a b : string) : stateKey a = stateKey b → a = b.
Proof.
  intros H. rewrite <- (slice_app STATE_KEY_PREFIX a).
  rewrite <- (slice_app STATE_KEY_PREFIX b). unfold stateKey in H. by rewrite H.
Qed.

Lemma stateKey_jobKey (a b : string) : stateKey a ≠ jobKey b.
Proof.
  intros H. pose proof (stateKey_not_job a) as Hs.
  rewrite H, jobKey_is_job in Hs. done.
Qed.
End keys.

(** Two keys built from different prefixes or from different ids differ. *)
Ltac key_neq :=
  let E := fresh "E" in
  intros E;
  first [ by apply stateKey_jobKey in E
        | symmetry in E; by apply stateKey_jobKey in E
        | apply stateKey_inj in E; congruence
        | apply jobKey_inj in E; congruence ].

(** ** The store *)

Section store_facts.
Import Store.

Lemma lookup_storage_remove (ks : list string) (st : storage) (k : string) :
  storage_remove ks st !! k = if decide (k ∈ ks) then None else st !! k.
Proof.
  unfold storage_remove. induction ks as [|k0 ks IH]; cbn [foldr].
  - rewrite decide_False; [done|apply not_elem_of_nil].
  - rewrite lookup_delete, IH.
    destruct (decide (k0 = k)) as [->|Hne].
    + rewrite decide_True; [done|left].
    + destruct (decide (k ∈ ks)) as [Hin|Hin].
      * rewrite decide_True; [done|by right].
      * rewrite decide_False; [done|].
        intros [->|?]%elem_of_cons; done.
Qed.

Lemma getJobData_Some (jid : string) (st : storage) (j : PublishJob) :
  getJobData jid st = Some j ↔ st !! jobKey jid = Some (VJob j).
Proof.
  unfold getJobData. destruct (st !! jobKey jid) as [[]|]; split; congruence.
Qed.

Lemma swept_spec (now : Z) (st : storage) (jid : string) :
  swept now st jid = true ↔
  ∃ j, getJobData jid st = Some j ∧ is_expired now (createdAt j) = true.
Proof.
  unfold swept. destruct (getJobData jid st) as [j|]; split.
  - intros H. by exists j.
  - by intros (j0 & [= <-] & H).
  - done.
  - by intros (j0 & [=] & _).
Qed.

Lemma is_expired_spec (now c : Z) :
  is_expired now c = true ↔ c ≠ 0 ∧ EXPIRY_TIME < now - c.
Proof.
  unfold is_expired. rewrite andb_true_iff, negb_true_iff.
  rewrite Z.eqb_neq, Z.ltb_lt. done.
Qed.

Lemma elem_of_expiredKeys (now : Z) (st : storage) (k : string) :
  k ∈ expiredKeys now st ↔
  ∃ jid, swept now st jid = true ∧ (k = jobKey jid ∨ k = stateKey jid).
Proof.
  unfold expiredKeys. rewrite list_elem_of_In, in_flat_map. split.
  - intros [[k0 v] [Hin Hk]].
    apply list_elem_of_In, elem_of_map_to_list in Hin.
    unfold expired_keys_of in Hk. cbn [fst snd] in Hk.
    destruct (startsWith k0 JOB_KEY_PREFIX) eqn:Hp; [|done].
    destruct (is_expired now (createdAt_of v)) eqn:He; [|done].
    cbn [andb] in Hk.
    exists (slice k0 (String.length JOB_KEY_PREFIX)).
    apply job_key_inv in Hp.
    split.
    + destruct v as [j| |]; simpl in He;
        try (unfold is_expired in He; simpl in He; done).
      apply swept_spec. exists j. split; [|done].
      apply getJobData_Some. by rewrite <- Hp.
    + destruct Hk as [<-|[<-|[]]]; auto.
  - intros (jid & (j & Hj & He)%swept_spec & Hk).
    apply getJobData_Some in Hj.
    exists (jobKey jid, VJob j). split.
    + by apply list_elem_of_In, elem_of_map_to_list.
    + unfold expired_keys_of. simpl fst. simpl snd.
      rewrite jobKey_is_job, jobKey_slice. simpl createdAt_of.
      rewrite He. simpl. destruct Hk as [-> | ->]; auto.
Qed.

Lemma clean_lookup_job (now : Z) (st : storage) (jid : string) :
  (cleanExpiredData now st).1 !! jobKey jid
  = if swept now st jid then None else st !! jobKey jid.
Proof.
  simpl. rewrite lookup_storage_remove.
  destruct (decide (jobKey jid ∈ expiredKeys now st)) as [Hin|Hin].
  - apply elem_of_expiredKeys in Hin as (jid' & Hs & [E|E]).
    + apply jobKey_inj in E as <-. by rewrite Hs.
    + symmetry in E. by apply stateKey_jobKey in E.
  - destruct (swept now st jid) eqn:Hs; [|done].
    exfalso. apply Hin, elem_of_expiredKeys. eauto.
Qed.

Lemma clean_lookup_state (now : Z) (st : storage) (jid : string) :
  (cleanExpiredData now st).1 !! stateKey jid
  = if swept now st jid then None else st !! stateKey jid.
Proof.
  simpl. rewrite lookup_storage_remove.
  destruct (decide (stateKey jid ∈ expiredKeys now st)) as [Hin|Hin].
  - apply elem_of_expiredKeys in Hin as (jid' & Hs & [E|E]).
    + by apply stateKey_jobKey in E.
    + apply stateKey_inj in E as <-. by rewrite Hs.
  - destruct (swept now st jid) eqn:Hs; [|done].
    exfalso. apply Hin, elem_of_expiredKeys. eauto.
Qed.
End store_facts.

(** ** TTL expiry *)

Section ttl.
Import Store Orchestrator Samples.

(** C8: a sweep at time [now] deletes exactly those stored jobs whose
    [now - createdAt] exceeds 24 hours, and deletes the job record and the
    state record together; a job that is kept keeps both. For a job created
    at [T], the sweep at [T + 24h + 1s] removes both records and
    [getJobData] then answers [None]. ([createdAt] is a reading of
    [Date.now()] and so is not [0], the value that the sweep reads as "no
    timestamp".) *)
Theorem sweep_removes_expired (now : Z) (st : storage) (jid : string)
    (j : PublishJob) :
  getJobData jid st = Some j →
  createdAt j ≠ 0 →
  let st' := (cleanExpiredData now st).1 in
  (getJobData jid st' = None ↔ EXPIRY_TIME < now - createdAt j)
  ∧ (EXPIRY_TIME < now - createdAt j →
       st' !! jobKey jid = None ∧ st' !! stateKey jid = None ∧
       getJobData jid st' = None ∧ getJobState jid st' = None)
  ∧ (¬ EXPIRY_TIME < now - createdAt j →
       getJobData jid st' = Some j ∧ st' !! stateKey jid = st !! stateKey jid)
  ∧ (now = createdAt j + 24 * 60 * 60 * 1000 + 1000 →
       getJobData jid st' = None ∧ getJobState jid st' = None).
Proof.
  intros Hj Hc st'.
  assert (Hgone : EXPIRY_TIME < now - createdAt j →
     st' !! jobKey jid = None ∧ st' !! stateKey jid = None ∧
     getJobData jid st' = None ∧ getJobState jid st' = None).
  { intros He.
    assert (Hs : swept now st jid = true).
    { apply swept_spec. exists j. split; [done|]. by apply is_expired_spec. }
    assert (H1 : st' !! jobKey jid = None)
      by (unfold st'; by rewrite clean_lookup_job, Hs).
    assert (H2 : st' !! stateKey jid = None)
      by (unfold st'; by rewrite clean_lookup_state, Hs).
    unfold getJobData, getJobState. by rewrite H1, H2. }
  assert (Hkept : ¬ EXPIRY_TIME < now - createdAt j →
     getJobData jid st' = Some j ∧ st' !! stateKey jid = st !! stateKey jid).
  { intros Hne.
    assert (Hs : swept now st jid = false).
    { unfold swept. rewrite Hj.
      destruct (is_expired now (createdAt j)) eqn:E; [|done].
      by apply is_expired_spec in E as [_ ?]. }
    unfold st'. rewrite clean_lookup_state, Hs. split; [|done].
    apply getJobData_Some. rewrite clean_lookup_job, Hs.
    by apply getJobData_Some. }
  split; [|split; [done|split; [done|]]].
  - split; [|by intros (_ & _ & ? & _)%Hgone].
    intros Hnone. destruct (decide (EXPIRY_TIME < now - createdAt j)); [done|].
    destruct (Hkept n) as [Hk _]. congruence.
  - intros ->. apply Hgone. unfold EXPIRY_TIME. lia.
Qed.

Lemma sweep_removes_expired_witness :
  getJobData "J" (store_one (job_at "J" 5000)) = Some (job_at "J" 5000) ∧
  getJobData "J"
    (cleanExpiredData (5000 + 24 * 60 * 60 * 1000 + 1000)
       (store_one (job_at "J" 5000))).1 = None.
Proof.
  split; [vm_compute; reflexivity|].
  refine (proj1 (proj2 (proj2 (proj2
    (sweep_removes_expired (5000 + 24 * 60 * 60 * 1000 + 1000)
       (store_one (job_at "J" 5000)) "J" (job_at "J" 5000) _ _))) _)).
  - vm_compute; reflexivity.
  - vm_compute; discriminate.
  - reflexivity.
Defined.
End ttl.

(** ** Capacity *)

Section capacity.
Import Store Orchestrator Samples.

Lemma or0_id (x : Z) : or0 x = x.
Proof. unfold or0. destruct (Z.eqb_spec x 0); congruence. Qed.

Lemma sort_insert_perm (e : string * StoredValue) l :
  sort_insert e l ≡ₚ e :: l.
Proof.
  induction l as [|x l IH]; cbn [sort_insert]; [done|].
  destruct (_ <=? 0); [done|]. rewrite IH. apply Permutation_swap.
Qed.

Lemma sort_jobs_perm l : sort_jobs l ≡ₚ l.
Proof.
  induction l as [|x l IH]; [done|]. unfold sort_jobs in *. cbn [foldr].
  by rewrite sort_insert_perm, IH.
Qed.

Lemma sort_insert_sorted (e : string * StoredValue) l :
  StronglySorted newer_first l → StronglySorted newer_first (sort_insert e l).
Proof.
  induction l as [|x l IH]; cbn [sort_insert]; intros Hs.
  - repeat constructor.
  - apply StronglySorted_cons in Hs as [Hx Hl]. rewrite !or0_id.
    destruct (Z.leb_spec (createdAt_of x.2 - createdAt_of e.2) 0) as [Hle|Hgt].
    + apply StronglySorted_cons. split.
      * constructor; [unfold newer_first; lia|].
        eapply Forall_impl; [exact Hx|]. unfold newer_first. intros; lia.
      * by apply StronglySorted_cons.
    + apply StronglySorted_cons. split; [|by apply IH].
      rewrite sort_insert_perm. constructor; [unfold newer_first; lia|done].
Qed.

Lemma sort_jobs_sorted l : StronglySorted newer_first (sort_jobs l).
Proof.
  induction l as [|x l IH]; [constructor|].
  unfold sort_jobs in *. cbn [foldr]. by apply sort_insert_sorted.
Qed.

Lemma elem_of_job_entries (st : storage) k v :
  (k, v) ∈ job_entries st ↔
  st !! k = Some v ∧ startsWith k JOB_KEY_PREFIX = true.
Proof.
  unfold job_entries. rewrite list_elem_of_filter, elem_of_map_to_list.
  cbn [fst]. tauto.
Qed.

Lemma NoDup_job_keys (st : storage) : NoDup (job_entries st).*1.
Proof.
  eapply sublist_NoDup; [apply (NoDup_fst_map_to_list st)|].
  apply fmap_sublist, sublist_filter.
Qed.

Lemma NoDup_job_entries (st : storage) : NoDup (job_entries st).
Proof. eapply NoDup_fmap_1, NoDup_job_keys. Qed.

Lemma retained_evicted (st : storage) :
  retained st ++ evicted st ≡ₚ job_entries st.
Proof. unfold retained, evicted. by rewrite take_drop, sort_jobs_perm. Qed.

Lemma elem_of_evicted_keys (st : storage) (k : string) :
  k ∈ flat_map evicted_keys_of (evicted st) ↔
  ∃ jid v, (jobKey jid, v) ∈ evicted st ∧ (k = jobKey jid ∨ k = stateKey jid).
Proof.
  rewrite list_elem_of_In, in_flat_map. split.
  - intros [[k0 v] [Hin Hk]]. apply list_elem_of_In in Hin.
    assert (Hjob : startsWith k0 JOB_KEY_PREFIX = true).
    { assert ((k0, v) ∈ job_entries st) as Hj.
      { rewrite <- retained_evicted. apply elem_of_app. by right. }
      by apply elem_of_job_entries in Hj as [_ ?]. }
    apply job_key_inv in Hjob.
    exists (slice k0 (String.length JOB_KEY_PREFIX)), v.
    rewrite <- Hjob. split; [done|].
    unfold evicted_keys_of in Hk. cbn [fst] in Hk.
    destruct Hk as [<-|[<-|[]]]; auto.
  - intros (jid & v & Hin & Hk). exists (jobKey jid, v).
    split; [by apply list_elem_of_In|].
    unfold evicted_keys_of. cbn [fst]. rewrite jobKey_slice.
    destruct Hk as [-> | ->]; simpl; auto.
Qed.

Lemma limit_under (st : storage) :
  (job_count st ≤ MAX_STORED_JOBS)%nat → limitStoredJobs st = st.
Proof.
  intros H. unfold limitStoredJobs.
  rewrite sort_jobs_perm. fold (job_count st).
  by apply Nat.leb_le in H as ->.
Qed.

Lemma limit_over (st : storage) :
  (MAX_STORED_JOBS < job_count st)%nat →
  limitStoredJobs st
  = storage_remove (flat_map evicted_keys_of (evicted st)) st.
Proof.
  intros H. unfold limitStoredJobs.
  rewrite sort_jobs_perm. fold (job_count st).
  apply Nat.leb_gt in H as ->. done.
Qed.

(** An entry of the sorted list is in exactly one of the two parts. *)
Lemma retained_or_evicted (st : storage) k v :
  (k, v) ∈ job_entries st →
  ((k, v) ∈ retained st ∧ k ∉ (evicted st).*1) ∨
  ((k, v) ∈ evicted st ∧ k ∉ (retained st).*1).
Proof.
  intros Hin. rewrite <- retained_evicted in Hin.
  pose proof (NoDup_job_keys st) as Hnd.
  rewrite <- retained_evicted, fmap_app in Hnd.
  apply NoDup_app in Hnd as (_ & Hdisj & _).
  apply elem_of_app in Hin as [Hin|Hin]; [left|right]; split; try done.
  - apply Hdisj. apply list_elem_of_fmap. by exists (k, v).
  - intros Hk. apply (Hdisj _ Hk). apply list_elem_of_fmap. by exists (k, v).
Qed.

Lemma limit_lookup_job (st : storage) (jid : string) :
  (MAX_STORED_JOBS < job_count st)%nat →
  limitStoredJobs st !! jobKey jid
  = if decide (jobKey jid ∈ (evicted st).*1) then None
    else st !! jobKey jid.
Proof.
  intros H. rewrite limit_over, lookup_storage_remove by done.
  destruct (decide (jobKey jid ∈ (evicted st).*1)) as [Hin|Hin].
  - rewrite decide_True; [done|].
    apply list_elem_of_fmap in Hin as [[k v] [Hk Hin]]. cbn [fst] in Hk.
    subst k. apply elem_of_evicted_keys. eauto.
  - rewrite decide_False; [done|]. intros Hk. apply Hin.
    apply elem_of_evicted_keys in Hk as (jid' & v & Hv & [E|E]).
    + apply jobKey_inj in E as <-. apply list_elem_of_fmap.
      by exists (jobKey jid, v).
    + symmetry in E. by apply stateKey_jobKey in E.
Qed.

Lemma limit_lookup_state (st : storage) (jid : string) :
  (MAX_STORED_JOBS < job_count st)%nat →
  limitStoredJobs st !! stateKey jid
  = if decide (jobKey jid ∈ (evicted st).*1) then None
    else st !! stateKey jid.
Proof.
  intros H. rewrite limit_over, lookup_storage_remove by done.
  destruct (decide (jobKey jid ∈ (evicted st).*1)) as [Hin|Hin].
  - rewrite decide_True; [done|].
    apply list_elem_of_fmap in Hin as [[k v] [Hk Hin]]. cbn [fst] in Hk.
    subst k. apply elem_of_evicted_keys. eauto.
  - rewrite decide_False; [done|]. intros Hk. apply Hin.
    apply elem_of_evicted_keys in Hk as (jid' & v & Hv & [E|E]).
    + by apply stateKey_jobKey in E.
    + apply stateKey_inj in E as <-. apply list_elem_of_fmap.
      by exists (jobKey jid, v).
Qed.

Lemma NoDup_retained (st : storage) : NoDup (retained st).
Proof.
  eapply sublist_NoDup; [|apply sublist_take].
  rewrite sort_jobs_perm. apply NoDup_job_entries.
Qed.

Lemma limit_job_entries (st : storage) :
  (MAX_STORED_JOBS < job_count st)%nat →
  job_entries (limitStoredJobs st) ≡ₚ retained st.
Proof.
  intros H. apply NoDup_Permutation;
    [apply NoDup_job_entries|apply NoDup_retained|].
  intros [k v]. rewrite elem_of_job_entries. split.
  - intros [Hl Hjob]. pose proof (job_key_inv _ Hjob) as Hk.
    rewrite Hk, limit_lookup_job in Hl by done. rewrite <- Hk in Hl.
    case_decide as He; [done|].
    destruct (retained_or_evicted st k v) as [[? _]|[Hin _]]; [|done|].
    + by apply elem_of_job_entries.
    + exfalso. apply He, list_elem_of_fmap. by exists (k, v).
  - intros Hin.
    assert (Hj : (k, v) ∈ job_entries st).
    { rewrite <- retained_evicted. apply elem_of_app. by left. }
    pose proof Hj as [Hl Hjob]%elem_of_job_entries. split; [|done].
    pose proof (job_key_inv _ Hjob) as Hk.
    rewrite Hk, limit_lookup_job by done. rewrite <- Hk.
    rewrite decide_False; [done|].
    destruct (retained_or_evicted st k v Hj) as [[_ ?]|[_ Hn]]; [done|].
    exfalso. apply Hn, list_elem_of_fmap. by exists (k, v).
Qed.

(** The hard cap of [limitStoredJobs]. *)
Lemma limit_count (st : storage) :
  job_count (limitStoredJobs st) = Nat.min MAX_STORED_JOBS (job_count st).
Proof.
  destruct (Nat.le_gt_cases (job_count st) MAX_STORED_JOBS) as [H|H].
  - rewrite limit_under by done. lia.
  - unfold job_count at 1. rewrite limit_job_entries by done.
    unfold retained. rewrite length_take, sort_jobs_perm.
    fold (job_count st). lia.
Qed.

(** Evicted jobs are no newer than retained ones. *)
Lemma evicted_oldest (st : storage) e r :
  e ∈ evicted st → r ∈ retained st → createdAt_of e.2 ≤ createdAt_of r.2.
Proof.
  intros He Hr.
  pose proof (sort_jobs_sorted (job_entries st)) as Hs.
  rewrite <- (take_drop MAX_STORED_JOBS) in Hs.
  exact (StronglySorted_app_1_elem_of _ _ _ _ _ Hs Hr He).
Qed.
Lemma job_count_insert_fresh (st : storage) (jid : string) (v : StoredValue) :
  st !! jobKey jid = None →
  job_count (<[jobKey jid := v]> st) = S (job_count st).
Proof.
  intros Hf. unfold job_count, job_entries.
  rewrite map_to_list_insert by done.
  rewrite filter_cons_True by apply jobKey_is_job. done.
Qed.

Lemma clean_nothing_expired (now : Z) (st : storage) :
  (∀ jid j, getJobData jid st = Some j →
            is_expired now (createdAt j) = false) →
  (cleanExpiredData now st).1 = st.
Proof.
  intros Hn. cbn [cleanExpiredData fst].
  replace (expiredKeys now st) with (@nil string); [done|].
  symmetry. apply elem_of_nil_inv. intros k Hk.
  apply elem_of_expiredKeys in Hk as (jid & (j & Hj & He)%swept_spec & _).
  by rewrite (Hn _ _ Hj) in He.
Qed.

(** C7, amended: storing a job first sweeps the expired jobs and then
    enforces the cap of 20. The store never holds more than 20 jobs after
    a Put; when more than 20 are left after the sweep, exactly 20 remain,
    every job is either kept unchanged with its state map or removed
    together with its state map, and a removed job is never newer than a
    kept one. In particular, with 20 stored jobs none of which is past
    its TTL, creating a 21st (a fresh id, itself not past its TTL) removes
    exactly one job, one of smallest [createdAt], and leaves 20. *)
Theorem store_enforces_capacity (now : Z) (job : PublishJob) (st : storage) :
  let st1 :=
    (cleanExpiredData now (<[jobKey (jobId job) := VJob job]> st)).1 in
  let st2 := storeJobData now job st in
  (job_count st2 ≤ MAX_STORED_JOBS)%nat
  ∧ ((MAX_STORED_JOBS < job_count st1)%nat →
     job_count st2 = MAX_STORED_JOBS
     ∧ ∀ jid v, st1 !! jobKey jid = Some v →
         (st2 !! jobKey jid = Some v
          ∧ st2 !! stateKey jid = st1 !! stateKey jid)
         ∨ (st2 !! jobKey jid = None ∧ st2 !! stateKey jid = None
            ∧ ∀ jid' v', st2 !! jobKey jid' = Some v' →
                         createdAt_of v ≤ createdAt_of v'))
  ∧ (job_count st = MAX_STORED_JOBS →
     st !! jobKey (jobId job) = None →
     is_expired now (createdAt job) = false →
     (∀ jid j, getJobData jid st = Some j →
               is_expired now (createdAt j) = false) →
     st1 = <[jobKey (jobId job) := VJob job]> st
     ∧ job_count st2 = MAX_STORED_JOBS
     ∧ ∃ jid v,
         st1 !! jobKey jid = Some v
         ∧ st2 !! jobKey jid = None ∧ st2 !! stateKey jid = None
         ∧ (∀ jid' v', st1 !! jobKey jid' = Some v' →
                       createdAt_of v ≤ createdAt_of v')
         ∧ (∀ jid', jid' ≠ jid →
              st2 !! jobKey jid' = st1 !! jobKey jid'
              ∧ st2 !! stateKey jid' = st1 !! stateKey jid')).
Proof.
  intros st1 st2.
  assert (Hst2 : st2 = limitStoredJobs st1) by done.
  assert (Hgen : (MAX_STORED_JOBS < job_count st1)%nat →
     job_count st2 = MAX_STORED_JOBS
     ∧ ∀ jid v, st1 !! jobKey jid = Some v →
         (st2 !! jobKey jid = Some v
          ∧ st2 !! stateKey jid = st1 !! stateKey jid)
         ∨ (st2 !! jobKey jid = None ∧ st2 !! stateKey jid = None
            ∧ ∀ jid' v', st2 !! jobKey jid' = Some v' →
                         createdAt_of v ≤ createdAt_of v')).
  { intros Hover. split; [rewrite Hst2, limit_count; lia|].
    intros jid v Hl. rewrite Hst2.
    rewrite limit_lookup_job, limit_lookup_state by done.
    assert (Hin : (jobKey jid, v) ∈ job_entries st1)
      by (apply elem_of_job_entries; split; [done|apply jobKey_is_job]).
    destruct (retained_or_evicted _ _ _ Hin) as [[Hr Hn]|[He Hn]].
    - left. by rewrite !decide_False.
    - right. rewrite !decide_True
        by (apply list_elem_of_fmap; by exists (jobKey jid, v)).
      split; [done|]. split; [done|]. intros jid' v' Hl'.
      assert (Hr : (jobKey jid', v') ∈ retained st1).
      { rewrite <- limit_job_entries by done.
        apply elem_of_job_entries. split; [done|apply jobKey_is_job]. }
      exact (evicted_oldest _ _ _ He Hr). }
  split; [rewrite Hst2, limit_count; lia|]. split; [exact Hgen|].
  intros Hcnt Hfresh Hjob Hothers.
  assert (Hst1 : st1 = <[jobKey (jobId job) := VJob job]> st).
  { unfold st1. apply clean_nothing_expired. intros jid j Hj.
    apply getJobData_Some in Hj.
    destruct (decide (jobKey (jobId job) = jobKey jid)) as [E|E].
    - rewrite E, lookup_insert_eq in Hj. by simplify_eq.
    - rewrite lookup_insert_ne in Hj by done.
      apply (Hothers jid). by apply getJobData_Some. }
  assert (Hc1 : job_count st1 = S MAX_STORED_JOBS)
    by (rewrite Hst1, job_count_insert_fresh by done; congruence).
  destruct Hgen as [Hc2 Hall]; [lia|].
  split; [done|]. split; [done|].
  assert (Hlen : length (evicted st1) = 1%nat).
  { unfold evicted. rewrite length_drop, sort_jobs_perm.
    fold (job_count st1). rewrite Hc1. done. }
  destruct (evicted st1) as [|[k v] [|??]] eqn:Hev; try done.
  assert (He : (k, v) ∈ evicted st1) by (rewrite Hev; left).
  assert (Hj : (k, v) ∈ job_entries st1).
  { rewrite <- retained_evicted. apply elem_of_app. by right. }
  apply elem_of_job_entries in Hj as [Hl Hk]. apply job_key_inv in Hk.
  set (jid := slice k (String.length JOB_KEY_PREFIX)) in *.
  rewrite Hk in Hl, He.
  exists jid, v. split; [done|].
  assert (Hin : jobKey jid ∈ (evicted st1).*1).
  { apply list_elem_of_fmap. by exists (jobKey jid, v). }
  rewrite Hst2, limit_lookup_job, limit_lookup_state, !decide_True
    by (done || lia).
  split; [done|]. split; [done|]. split.
  - intros jid' v' Hl'.
    assert (Hin' : (jobKey jid', v') ∈ job_entries st1)
      by (apply elem_of_job_entries; split; [done|apply jobKey_is_job]).
    destruct (retained_or_evicted _ _ _ Hin') as [[Hr _]|[He' _]].
    + exact (evicted_oldest _ _ _ He Hr).
    + rewrite Hev in He'. apply list_elem_of_singleton in He'.
      injection He' as _ ->. lia.
  - intros jid' Hne.
    rewrite limit_lookup_job, limit_lookup_state, !decide_False;
      try done; try lia.
    all: rewrite Hev; cbn; intros Hx%list_elem_of_singleton;
      rewrite Hk in Hx; by apply jobKey_inj in Hx.
Qed.
Lemma none_expired_spec (now : Z) (st : storage) :
  none_expired now st = true →
  ∀ jid j, getJobData jid st = Some j → is_expired now (createdAt j) = false.
Proof.
  unfold none_expired. rewrite forallb_forall. intros H jid j Hj.
  apply getJobData_Some in Hj.
  specialize (H (jobKey jid, VJob j)). cbn [snd createdAt_of] in H.
  apply negb_true_iff, H, list_elem_of_In, elem_of_job_entries.
  split; [done|apply jobKey_is_job].
Qed.

Lemma store_enforces_capacity_witness :
  let st := store_many (twenty_from 100000) in
  let job := job_at "u" 200000 in
  job_count st = 20%nat ∧
  job_count (storeJobData 200000 job st) = 20%nat ∧
  getJobData "a" (storeJobData 200000 job st) = None ∧
  getJobData "u" (storeJobData 200000 job st) = Some job.
Proof.
  intros st job.
  pose proof (store_enforces_capacity 200000 job st) as H. cbv zeta in H.
  destruct H as (_ & _ & H).
  destruct H as (_ & Hc & _).
  - vm_compute; reflexivity.
  - vm_compute; reflexivity.
  - vm_compute; reflexivity.
  - apply none_expired_spec. vm_compute; reflexivity.
  - split; [vm_compute; reflexivity|]. split; [exact Hc|].
    split; vm_compute; reflexivity.
Defined.

(** C7 as stated fails when stored jobs are past their TTL: of twenty
    stored jobs two are two days old; creating a 21st removes both and
    leaves 19. *)
Lemma capacity_sweep_counterexample :
  let st := store_many two_stale in
  let job := job_at "u" (3 * day) in
  job_count st = 20%nat ∧
  st !! jobKey "u" = None ∧
  job_count (storeJobData (3 * day) job st) = 19%nat ∧
  getJobData "a" (storeJobData (3 * day) job st) = None ∧
  getJobData "b" (storeJobData (3 * day) job st) = None.
Proof. by_evaluation. Qed.
End capacity.

(** ** The initial state map *)

Section initial_state.
Import Store Orchestrator Samples.

Lemma includes_spec (l : list ChannelId) (c : ChannelId) :
  includes l c = true ↔ c ∈ l.
Proof.
  unfold includes. rewrite existsb_exists. split.
  - intros (x & Hin & ->%String.eqb_eq). by apply list_elem_of_In.
  - intros Hin. exists c. split; [by apply list_elem_of_In|].
    apply String.eqb_refl.
Qed.

Lemma buildInitialState_list (now : Z) :
  buildInitialState now
  = list_to_map ((λ c, (c, nowState now c)) <$> ALL_CHANNELS).
Proof. reflexivity. Qed.

Lemma buildInitialState_lookup (now : Z) (c : ChannelId) (st : ChannelRuntimeState) :
  buildInitialState now !! c = Some st ↔ c ∈ ALL_CHANNELS ∧ st = nowState now c.
Proof.
  rewrite buildInitialState_list, <- elem_of_list_to_map.
  - rewrite list_elem_of_fmap. split.
    + intros (c' & [= -> ->] & Hin). done.
    + intros [Hin ->]. by exists c.
  - rewrite <- list_fmap_compose.
    refine (bool_decide_unpack _ _). vm_compute. exact I.
Qed.

Lemma buildInitialState_size (now : Z) : size (buildInitialState now) = 10%nat.
Proof. reflexivity. Qed.

Lemma buildInitialState_dom (now : Z) :
  dom (buildInitialState now) = list_to_set ALL_CHANNELS.
Proof.
  apply set_eq. intros c.
  rewrite elem_of_dom, elem_of_list_to_set. unfold is_Some.
  setoid_rewrite buildInitialState_lookup. split.
  - by intros (st & Hin & _).
  - intros Hin. by eexists.
Qed.

Lemma buildInitialState_not_started (now : Z) :
  map_Forall (λ _ st, status st = not_started) (buildInitialState now).
Proof. intros c st [_ ->]%buildInitialState_lookup. done. Qed.
End initial_state.

(** ** StartJob *)

Section start_job.
Import Store Orchestrator Samples.

Variable tabs_create : string → bool → TabResult.
Variables (jid : string) (now : Z) (focus : ChannelId).

Local Abbreviation spawn_one := (spawn_one tabs_create jid now focus).
Local Abbreviation run_spawn := (foldl spawn_one).

Lemma spawn_dom (cs : list ChannelId) (acc : Spawned) :
  dom (sp_state (run_spawn acc cs)) = dom (sp_state acc).
Proof.
  revert acc. induction cs as [|c cs IH]; intros acc; [done|].
  cbn [foldl]. rewrite IH. unfold Orchestrator.spawn_one.
  destruct (tabs_create _ _) as [[tab|]|e]; cbn; try done.
  destruct (negb _); cbn; [apply dom_alter_L|done].
Qed.

(** A spawn callback only moves its own channel, and only to [running]. *)
Lemma spawn_one_lookup (acc : Spawned) (c c' : ChannelId) :
  sp_state (spawn_one acc c) !! c' = sp_state acc !! c'
  ∨ (c' = c ∧ ∃ tab prev, tabs_create (entryUrls c) (String.eqb c focus)
                           = TabCreated (Some tab)
       ∧ sp_state acc !! c = Some prev
       ∧ sp_state (spawn_one acc c) !! c' = Some (mark_running now tab prev)).
Proof.
  unfold Orchestrator.spawn_one.
  destruct (tabs_create _ _) as [[tab|]|e] eqn:E; cbn; auto.
  destruct (negb _); cbn; auto.
  destruct (decide (c = c')) as [<-|Hne].
  - rewrite lookup_alter_eq. destruct (sp_state acc !! c) as [prev|]; cbn; auto.
    right. split; [done|]. by exists tab, prev.
  - left. by apply lookup_alter_ne.
Qed.

Lemma spawn_status (P : ChannelResultStatus → Prop) (cs : list ChannelId)
    (acc : Spawned) :
  P running →
  map_Forall (λ _ st, P (status st)) (sp_state acc) →
  map_Forall (λ _ st, P (status st)) (sp_state (run_spawn acc cs)).
Proof.
  intros Hr. revert acc. induction cs as [|c cs IH]; intros acc Hacc; [done|].
  cbn [foldl]. apply IH. intros c' st Hl.
  destruct (spawn_one_lookup acc c c') as [E|(_ & tab & prev & _ & _ & E)];
    rewrite E in Hl.
  - by apply (Hacc c').
  - by simplify_eq.
Qed.

(** A channel keeps its entry when every tab creation for it fails. *)
Lemma spawn_untouched (cs : list ChannelId) (acc : Spawned) (c : ChannelId) e :
  tabs_create (entryUrls c) (String.eqb c focus) = TabCreateFailed e →
  sp_state (run_spawn acc cs) !! c = sp_state acc !! c.
Proof.
  intros Hf. revert acc. induction cs as [|c0 cs IH]; intros acc; [done|].
  cbn [foldl]. rewrite IH.
  destruct (spawn_one_lookup acc c0 c) as [E|(-> & tab & prev & E & _)];
    [done|congruence].
Qed.

Lemma spawn_running (cs : list ChannelId) (acc : Spawned) (c : ChannelId) tab :
  c ∈ cs → is_Some (sp_state acc !! c) →
  tabs_create (entryUrls c) (String.eqb c focus) = TabCreated (Some tab) →
  tab ≠ 0 →
  status <$> sp_state (run_spawn acc cs) !! c = Some running.
Proof.
  intros Hin Hsome Hc Htab.
  assert (Hkeep : ∀ cs acc,
    status <$> sp_state acc !! c = Some running →
    status <$> sp_state (run_spawn acc cs) !! c = Some running).
  { clear. intros cs. induction cs as [|c0 cs IH]; intros acc H; [done|].
    cbn [foldl]. apply IH.
    destruct (spawn_one_lookup acc c0 c) as [E|(_ & ? & ? & _ & _ & E)];
      rewrite E; done. }
  revert acc Hsome. induction cs as [|c0 cs IH]; intros acc Hsome.
  - by apply elem_of_nil in Hin.
  - cbn [foldl]. apply elem_of_cons in Hin as [<-|Hin].
    + apply Hkeep. unfold Orchestrator.spawn_one. rewrite Hc. cbn.
      destruct (Z.eqb_spec tab 0); [done|]. cbn.
      rewrite lookup_alter_eq. by destruct Hsome as [? ->].
    + apply IH; [done|].
      destruct (spawn_one_lookup acc c0 c) as [E|(_ & ? & ? & _ & _ & E)];
        rewrite E; done.
Qed.

Lemma spawn_error_keep (cs : list ChannelId) (acc : Spawned) :
  is_Some (sp_error acc) → is_Some (sp_error (run_spawn acc cs)).
Proof.
  revert acc. induction cs as [|c cs IH]; intros acc H; [done|].
  cbn [foldl]. apply IH. unfold Orchestrator.spawn_one.
  destruct (tabs_create _ _) as [[tab|]|e]; cbn; try done.
  - by destruct (negb _).
  - destruct (sp_error acc); done.
Qed.

Lemma spawn_error_some (cs : list ChannelId) (acc : Spawned) (c : ChannelId) e :
  c ∈ cs →
  tabs_create (entryUrls c) (String.eqb c focus) = TabCreateFailed e →
  is_Some (sp_error (run_spawn acc cs)).
Proof.
  intros Hin Hf. revert acc. induction cs as [|c0 cs IH]; intros acc.
  - by apply elem_of_nil in Hin.
  - cbn [foldl]. apply elem_of_cons in Hin as [<-|Hin]; [|by apply IH].
    apply spawn_error_keep. unfold Orchestrator.spawn_one. rewrite Hf. cbn.
    destruct (sp_error acc); done.
Qed.

Lemma spawn_error_none (cs : list ChannelId) (acc : Spawned) :
  sp_error acc = None →
  (∀ c, c ∈ cs → ∃ id, tabs_create (entryUrls c) (String.eqb c focus)
                       = TabCreated id) →
  sp_error (run_spawn acc cs) = None.
Proof.
  revert acc. induction cs as [|c cs IH]; intros acc Hacc Hall; [done|].
  cbn [foldl]. apply IH; [|intros c' ?; apply Hall; by right].
  destruct (Hall c) as [id Hid]; [left|].
  unfold Orchestrator.spawn_one. rewrite Hid.
  destruct id as [tab|]; [|done]. cbn. by destruct (negb _).
Qed.

Lemma channelsToRun_supported (req : option (list ChannelId)) (c : ChannelId) :
  c ∈ channelsToRun req → c ∈ ALL_CHANNELS.
Proof.
  unfold channelsToRun. rewrite list_elem_of_In, filter_In.
  intros [_ H]. by apply includes_spec.
Qed.
End start_job.

Section start_job_claims.
Import Store Orchestrator Samples.

Lemma start_result (tabs_create : string → bool → TabResult) (jid : string)
    (now : Z) (message : StartJobRequest) (sender : option Z) (s : Sys)
    (art : ArticlePayload) :
  valid_article (m_article message) = Some art →
  let cs := channelsToRun (m_channels message) in
  let sp := spawn_all tabs_create jid now (m_focusChannel message)
              (tabIdToContext s) (buildInitialState now) cs in
  let r := handleV2StartJob tabs_create jid now message sender s in
  jobStateCache r.1.1 !! jid = Some (sp_state sp)
  ∧ match sp_error sp with
    | Some e =>
        r.2 = err e ∧ r.1.2 = spawn_events (m_focusChannel message) cs
        ∧ getJobState jid (store r.1.1) = Some (buildInitialState now)
    | None =>
        r.2 = ok_job jid
        ∧ r.1.2 = (spawn_events (m_focusChannel message) cs
                   ++ broadcastJobState jid r.1.1)%list
        ∧ getJobState jid (store r.1.1) = Some (sp_state sp)
    end.
Proof.
  intros Hv cs sp r. unfold r, handleV2StartJob. rewrite Hv.
  fold cs. fold sp. destruct (sp_error sp) as [e|]; cbn.
  - rewrite lookup_insert_eq. unfold getJobState, storeJobState.
    by rewrite lookup_insert_eq.
  - rewrite lookup_insert_eq. unfold getJobState, storeJobState.
    by rewrite lookup_insert_eq.
Qed.

(** C1, amended: for every valid StartJob call, whatever channels are
    selected, the state map built at start has exactly 10 entries, one per
    supported channel, each at [not_started]; after the spawn the map held
    for the job still has exactly these 10 entries, every one
    [not_started] or [running] and none [success] or [failed]; when the
    start succeeds this is the map that is persisted and broadcast. *)
Theorem start_state_map (tabs_create : string → bool → TabResult)
    (jid : string) (now : Z) (message : StartJobRequest) (sender : option Z)
    (s : Sys) (art : ArticlePayload) :
  valid_article (m_article message) = Some art →
  let r := handleV2StartJob tabs_create jid now message sender s in
  size (buildInitialState now) = 10%nat
  ∧ map_Forall (λ _ st, status st = not_started) (buildInitialState now)
  ∧ ∃ m, jobStateCache r.1.1 !! jid = Some m
      ∧ size m = 10%nat
      ∧ dom m = list_to_set ALL_CHANNELS
      ∧ (∀ c st, m !! c = Some st →
           (status st = not_started ∨ status st = running)
           ∧ status st ≠ success ∧ status st ≠ failed)
      ∧ (r_success r.2 = true →
           getJobState jid (store r.1.1) = Some m
           ∧ ∀ tab j cs m', JobBroadcast tab j cs m' ∈ r.1.2 → m' = m).
Proof.
  intros Hv r.
  split; [apply buildInitialState_size|].
  split; [apply buildInitialState_not_started|].
  destruct (start_result tabs_create jid now message sender s art Hv)
    as [Hcache Hres]. fold r in Hcache, Hres.
  set (sp := spawn_all _ _ _ _ _ _ _) in *.
  assert (Hdom : dom (sp_state sp) = list_to_set ALL_CHANNELS).
  { unfold sp, spawn_all. rewrite spawn_dom. apply buildInitialState_dom. }
  exists (sp_state sp). split; [done|]. split.
  { rewrite <- size_dom, Hdom. reflexivity. }
  split; [done|]. split.
  - intros c st Hl.
    assert (H : status st = not_started ∨ status st = running).
    { revert c st Hl. unfold sp, spawn_all.
      apply (spawn_status _ _ _ _ (λ x, x = not_started ∨ x = running));
        [by right|].
      intros c st [_ ->]%buildInitialState_lookup. by left. }
    split; [done|]. destruct H as [-> | ->]; done.
  - intros Hok. destruct (sp_error sp) as [e|].
    + destruct Hres as (Hr & _). rewrite Hr in Hok. done.
    + destruct Hres as (_ & Hev & Hst). split; [done|].
      intros tab j cs m'. rewrite Hev, elem_of_app. intros [Hin|Hin].
      * unfold spawn_events in Hin.
        apply list_elem_of_fmap in Hin as (? & ? & _). done.
      * unfold broadcastJobState in Hin. rewrite Hcache in Hin.
        destruct (jobIdToSourceTabId r.1.1 !! jid) as [t|];
          [|by apply elem_of_nil in Hin].
        destruct (truthy (Some t)); [|by apply elem_of_nil in Hin].
        apply list_elem_of_singleton in Hin. by simplify_eq.
Qed.

Lemma start_state_map_witness :
  valid_article (m_article (start_msg (Some ["csdn"; "cnblogs"]))) = Some art
  ∧ size (buildInitialState 1000) = 10%nat.
Proof.
  split; [reflexivity|].
  exact (proj1 (start_state_map tabs_ok "J" 1000
                  (start_msg (Some ["csdn"; "cnblogs"])) (Some 3) sys0 art
                  eq_refl)).
Defined.

(** C1 as stated fails: with one selected channel the state map has ten
    entries, in the cache and in the store. *)
Lemma start_state_size_counterexample :
  let r := handleV2StartJob tabs_ok "J" 1000 (start_msg (Some ["csdn"]))
             (Some 3) sys0 in
  r.2 = ok_job "J"
  ∧ channelsToRun (m_channels (start_msg (Some ["csdn"]))) = ["csdn"]
  ∧ size <$> jobStateCache r.1.1 !! "J" = Some 10%nat
  ∧ size <$> getJobState "J" (store r.1.1) = Some 10%nat.
Proof. by_evaluation. Qed.

(** C2: the code breaks the claim. The start of job [J] on csdn and
    cnblogs, where opening the csdn tab is rejected, answers
    [{success: false, error}] instead of [{success, jobId}], and csdn is
    left [not_started] with no diagnostic instead of being marked [failed].
    The other channel does proceed: the cnblogs tab is requested and
    registered for the job, the job record is stored, and the cached map
    shows cnblogs [running]; but that map is neither persisted (the
    persisted one still shows cnblogs [not_started]) nor broadcast. *)
Theorem start_one_tab_rejected :
  let r := handleV2StartJob tabs_csdn_fails "J" 1000
             (start_msg (Some ["csdn"; "cnblogs"])) (Some 3) sys0 in
  r.2 = err "No current window"
  ∧ r.1.2 = [TabCreate "https://mp.csdn.net/mp_blog/creation/editor" true;
             TabCreate "https://i.cnblogs.com/posts/edit" false]
  ∧ jobId <$> getJobData "J" (store r.1.1) = Some "J"
  ∧ tabIdToContext r.1.1 !! 32 = Some ("J", "cnblogs")
  ∧ status <$> (jobStateCache r.1.1 !! "J" ≫= (.!! "csdn")) = Some not_started
  ∧ devDetails <$> (jobStateCache r.1.1 !! "J" ≫= (.!! "csdn")) = Some None
  ∧ status <$> (jobStateCache r.1.1 !! "J" ≫= (.!! "cnblogs")) = Some running
  ∧ status <$> (getJobState "J" (store r.1.1) ≫= (.!! "csdn"))
    = Some not_started
  ∧ status <$> (getJobState "J" (store r.1.1) ≫= (.!! "cnblogs"))
    = Some not_started.
Proof. by_evaluation. Qed.

End start_job_claims.

(** ** ChannelUpdate *)

Section channel_update.
Import Store Orchestrator Samples.

Lemma getJobData_storeJobState (jid jid' : string) (m : StoredJobState)
    (st : storage) :
  getJobData jid (storeJobState jid' m st) = getJobData jid st.
Proof.
  unfold getJobData, storeJobState. rewrite lookup_insert_ne; [done|].
  apply stateKey_jobKey.
Qed.

Lemma getJobState_storeJobState (jid : string) (m : StoredJobState)
    (st : storage) :
  getJobState jid (storeJobState jid m st) = Some m.
Proof. unfold getJobState, storeJobState. by rewrite lookup_insert_eq. Qed.

(** The outcome of an update that passes the two guards. *)
Lemma update_applied (now : Z) (message : ChannelUpdate) (sender : option Z)
    (s : Sys) :
  nonempty (u_jobId message) = true →
  nonempty (u_channelId message) = true →
  is_stopped (u_jobId message) (store s) = false →
  let c := u_channelId message in
  let current := current_state now (u_jobId message) s in
  let next := merge_state (default (nowState now c) (current !! c))
                (default empty_patch (u_patch message)) c now sender in
  let m := <[c := next]> current in
  let s' := {| store := storeJobState (u_jobId message) m (store s);
               tabIdToContext := tabIdToContext s;
               jobIdToSourceTabId := jobIdToSourceTabId s;
               jobStateCache := <[u_jobId message := m]> (jobStateCache s) |} in
  handleV2ChannelUpdate now message sender s
  = (s', broadcastJobState (u_jobId message) s', ok).
Proof.
  intros Hj Hc Hs. unfold handleV2ChannelUpdate. by rewrite Hj, Hc, Hs.
Qed.

(** C4: a ChannelUpdate for a job whose [stoppedAt] is set is answered
    with [{success}] and changes nothing: the store (job records and state
    maps), the cache and the registries are the ones before the update, and
    no message is sent, hence no broadcast. *)
Theorem update_after_stop (now : Z) (message : ChannelUpdate)
    (sender : option Z) (s : Sys) (job : PublishJob) :
  nonempty (u_jobId message) = true →
  nonempty (u_channelId message) = true →
  getJobData (u_jobId message) (store s) = Some job →
  truthy (stoppedAt job) = true →
  handleV2ChannelUpdate now message sender s = (s, [], ok).
Proof.
  intros Hj Hc Hjob Hstop. unfold handleV2ChannelUpdate, is_stopped.
  by rewrite Hj, Hc, Hjob, Hstop.
Qed.

Lemma update_after_stop_witness :
  let s := sys_of (store_one (stopped_at "J" 1000 2000)) in
  handleV2ChannelUpdate 3000 (update_msg "J" "csdn") (Some 44) s = (s, [], ok).
Proof.
  intros s.
  apply (update_after_stop 3000 (update_msg "J" "csdn") (Some 44) s
           (stopped_at "J" 1000 2000)); vm_compute; reflexivity.
Defined.

(** C6: a ChannelUpdate applied to a job that is not stopped leaves the
    state of every other channel as it was in the job's map before the
    merge, in the cache and in the store, whatever the patch. *)
Theorem update_channel_local (now : Z) (message : ChannelUpdate)
    (sender : option Z) (s : Sys) (c : ChannelId) :
  nonempty (u_jobId message) = true →
  nonempty (u_channelId message) = true →
  is_stopped (u_jobId message) (store s) = false →
  c ≠ u_channelId message →
  let r := handleV2ChannelUpdate now message sender s in
  ∃ m, jobStateCache r.1.1 !! u_jobId message = Some m
     ∧ getJobState (u_jobId message) (store r.1.1) = Some m
     ∧ m !! c = current_state now (u_jobId message) s !! c
     ∧ (∀ m0, jobStateCache s !! u_jobId message = Some m0 →
              m !! c = m0 !! c)
     ∧ (∀ m0, jobStateCache s !! u_jobId message = None →
              getJobState (u_jobId message) (store s) = Some m0 →
              m !! c = m0 !! c).
Proof.
  intros Hj Hc Hs Hne r. unfold r.
  rewrite update_applied by done. cbn [fst snd].
  eexists. cbn [jobStateCache store].
  split; [apply lookup_insert_eq|].
  split; [apply getJobState_storeJobState|].
  rewrite lookup_insert_ne by done. split; [done|]. split.
  - intros m0 H0. unfold current_state. by rewrite H0.
  - intros m0 H0 H1. unfold current_state. by rewrite H0, H1.
Qed.

Lemma update_channel_local_witness :
  let r := handleV2ChannelUpdate 3000 (update_msg "J" "csdn") (Some 44)
             sys_started in
  ∃ m, jobStateCache r.1.1 !! "J" = Some m
     ∧ m !! "cnblogs" = current_state 3000 "J" sys_started !! "cnblogs".
Proof.
  intros r.
  destruct (update_channel_local 3000 (update_msg "J" "csdn") (Some 44)
              sys_started "cnblogs") as (m & H1 & _ & H2 & _).
  - reflexivity.
  - reflexivity.
  - vm_compute; reflexivity.
  - discriminate.
  - exists m. split; [exact H1|exact H2].
Defined.


End channel_update.

(** ** RequestStop and the broadcasts *)

Section stop_job.
Import Store Orchestrator Samples.

Lemma job_count_insert_existing (st : storage) (jid : string)
    (v v' : StoredValue) :
  st !! jobKey jid = Some v →
  job_count (<[jobKey jid := v']> st) = job_count st.
Proof.
  intros H.
  rewrite <- (insert_delete_eq st), job_count_insert_fresh
    by apply lookup_delete_eq.
  rewrite <- (insert_delete_id st (jobKey jid) v) at 2 by done.
  by rewrite job_count_insert_fresh by apply lookup_delete_eq.
Qed.

Lemma job_count_remove_le (ks : list string) (st : storage) :
  (job_count (storage_remove ks st) ≤ job_count st)%nat.
Proof.
  unfold job_count.
  apply submseteq_length, NoDup_submseteq; [apply NoDup_job_entries|].
  intros [k v] [Hl Hp]%elem_of_job_entries. apply elem_of_job_entries.
  split; [|done]. rewrite lookup_storage_remove in Hl. by case_decide.
Qed.

(** Rewriting a stored, unexpired job in a store within its capacity keeps
    the job and its state map. *)
Lemma storeJobData_keeps (now : Z) (job : PublishJob) (st : storage)
    (v : StoredValue) :
  st !! jobKey (jobId job) = Some v →
  is_expired now (createdAt job) = false →
  (job_count st ≤ MAX_STORED_JOBS)%nat →
  getJobData (jobId job) (storeJobData now job st) = Some job
  ∧ storeJobData now job st !! stateKey (jobId job)
    = st !! stateKey (jobId job).
Proof.
  intros Hv He Hc. unfold storeJobData.
  set (st1 := <[jobKey (jobId job) := VJob job]> st).
  assert (Hj : getJobData (jobId job) st1 = Some job)
    by (apply getJobData_Some, lookup_insert_eq).
  assert (Hs : swept now st1 (jobId job) = false)
    by (unfold swept; by rewrite Hj).
  rewrite limit_under.
  - rewrite getJobData_Some, clean_lookup_job, clean_lookup_state, Hs.
    split; [apply lookup_insert_eq|].
    unfold st1. rewrite lookup_insert_ne; [done|].
    intros E. symmetry in E. by apply stateKey_jobKey in E.
  - etrans; [apply job_count_remove_le|].
    unfold st1. by erewrite job_count_insert_existing.
Qed.

(** C5, amended: for a stored job that is not yet stopped and not past its
    TTL (in a store within its capacity of 20 jobs, as every Put leaves
    it), the first RequestStop answers [{success}] and sets [stoppedAt] to
    the time of the call; a second RequestStop, at any later time, answers
    [{success}] again, sends nothing and leaves the whole system, job
    records, state maps, cache and registries, as the first call left
    it. *)
Theorem stop_idempotent (now now' : Z) (jid : string) (s : Sys)
    (job : PublishJob) :
  nonempty jid = true →
  getJobData jid (store s) = Some job →
  jobId job = jid →
  truthy (stoppedAt job) = false →
  now ≠ 0 →
  is_expired now (createdAt job) = false →
  (job_count (store s) ≤ MAX_STORED_JOBS)%nat →
  let r1 := handleV2StopJob now jid s in
  let r2 := handleV2StopJob now' jid r1.1.1 in
  r1.2 = ok
  ∧ stoppedAt <$> getJobData jid (store r1.1.1) = Some (Some now)
  ∧ r2 = (r1.1.1, [], ok).
Proof.
  intros Hn Hj Hid Hns Hnow He Hc r1 r2.
  set (job' := {| jobId := jobId job; createdAt := createdAt job;
                  action := action job; article := article job;
                  channels := channels job; sourceTabId := sourceTabId job;
                  stoppedAt := Some now |}).
  assert (Hr1 : ∃ evs, r1 = ({| store := storeJobData now job' (store s);
                                tabIdToContext := tabIdToContext s;
                                jobIdToSourceTabId := jobIdToSourceTabId s;
                                jobStateCache := jobStateCache s |}, evs, ok)).
  { unfold r1, handleV2StopJob, markJobStopped.
    rewrite Hn, Hj, Hns. cbn. by eexists. }
  destruct Hr1 as [evs Hr1].
  assert (Hkept : getJobData jid (storeJobData now job' (store s)) = Some job').
  { rewrite <- Hid. apply getJobData_Some in Hj. rewrite <- Hid in Hj.
    by apply (storeJobData_keeps now job' (store s) (VJob job)). }
  unfold r2. rewrite Hr1. cbn [fst snd store].
  split; [done|]. split; [by rewrite Hkept|].
  unfold handleV2StopJob. cbn [store]. rewrite Hn, Hkept. cbn.
  by destruct (Z.eqb_spec now 0).
Qed.

Lemma stop_idempotent_witness :
  let r1 := handleV2StopJob 2000 "J" sys_started in
  r1.2 = ok ∧ handleV2StopJob 2500 "J" r1.1.1 = (r1.1.1, [], ok).
Proof.
  intros r1.
  destruct (stop_idempotent 2000 2500 "J" sys_started
              {| jobId := "J"; createdAt := 1000; action := publish;
                 article := art; channels := Some ["csdn"; "cnblogs"];
                 sourceTabId := Some 3; stoppedAt := None |})
    as (H1 & _ & H2); try (vm_compute; reflexivity).
  - discriminate.
  - vm_compute. lia.
  - split; [exact H1|exact H2].
Defined.

(** C5 as stated fails for a job that is past its TTL but not yet swept:
    the first RequestStop answers [{success}], and the Put it performs
    sweeps the job away; the second RequestStop answers with the error
    [Job not found]. *)
Lemma stop_expired_counterexample :
  let s := sys_of (store_one (job_at "J" day)) in
  let r1 := handleV2StopJob (3 * day) "J" s in
  let r2 := handleV2StopJob (3 * day + 5) "J" r1.1.1 in
  getJobData "J" (store s) = Some (job_at "J" day)
  ∧ r1.2 = ok
  ∧ getJobData "J" (store r1.1.1) = None
  ∧ r2.2 = err "Job not found".
Proof. by_evaluation. Qed.

Lemma stop_signals_only (jid : string) (state : option StoredJobState)
    (ev : Event) :
  ev ∈ stop_signals jid state → ∃ tab, ev = StopSignal tab jid.
Proof.
  unfold stop_signals. rewrite list_elem_of_In, in_flat_map.
  intros (c & _ & Hin).
  destruct (_ ≫= tabId) as [tab|]; [|done].
  destruct (truthy _); [|done].
  destruct Hin as [<-|[]]. by exists tab.
Qed.

(** C3, amended: a successful StartJob and every applied ChannelUpdate end
    with one push of the full snapshot (job id, the job's channels, the
    whole state map) to the job's source tab, when that tab is known;
    RequestStop sends no snapshot at all: the only messages it sends are
    stop signals to the channels' tabs, and its result reaches the client
    through the response. *)
Theorem broadcast_after_mutation :
  (∀ tabs_create jid now message (s : Sys) art tab,
     valid_article (m_article message) = Some art →
     tab ≠ 0 →
     let r := handleV2StartJob tabs_create jid now message (Some tab) s in
     r_success r.2 = true →
     ∃ m, jobStateCache r.1.1 !! jid = Some m
        ∧ getJobState jid (store r.1.1) = Some m
        ∧ r.1.2 = (spawn_events (m_focusChannel message)
                     (channelsToRun (m_channels message))
                   ++ [JobBroadcast tab jid
                         (getJobData jid (store r.1.1) ≫= channels) m])%list)
  ∧ (∀ now message sender (s : Sys) tab,
       nonempty (u_jobId message) = true →
       nonempty (u_channelId message) = true →
       is_stopped (u_jobId message) (store s) = false →
       jobIdToSourceTabId s !! u_jobId message = Some tab →
       tab ≠ 0 →
       let r := handleV2ChannelUpdate now message sender s in
       ∃ m, jobStateCache r.1.1 !! u_jobId message = Some m
          ∧ getJobState (u_jobId message) (store r.1.1) = Some m
          ∧ r.1.2 = [JobBroadcast tab (u_jobId message)
                       (getJobData (u_jobId message) (store r.1.1)
                          ≫= channels) m])
  ∧ (∀ now jid (s : Sys) ev,
       ev ∈ (handleV2StopJob now jid s).1.2 → ∃ tab, ev = StopSignal tab jid).
Proof.
  split; [|split].
  - intros tabs_create jid now message s art tab Hv Htab r Hok.
    destruct (start_result tabs_create jid now message (Some tab) s art Hv)
      as [Hcache Hres]. fold r in Hcache, Hres.
    set (sp := spawn_all _ _ _ _ _ _ _) in *.
    destruct (sp_error sp) as [e|] eqn:He.
    { destruct Hres as (Hr & _). rewrite Hr in Hok. done. }
    destruct Hres as (_ & Hev & Hst).
    exists (sp_state sp). split; [done|]. split; [done|].
    rewrite Hev. f_equal. unfold broadcastJobState. rewrite Hcache.
    assert (Hsrc : jobIdToSourceTabId r.1.1 !! jid = Some tab).
    { unfold r, handleV2StartJob. rewrite Hv. cbv zeta.
      fold (spawn_all tabs_create jid now (m_focusChannel message)
              (tabIdToContext s) (buildInitialState now)
              (channelsToRun (m_channels message))).
      fold sp. rewrite He. cbn.
      destruct (Z.eqb_spec tab 0); [done|]. cbn. apply lookup_insert_eq. }
    rewrite Hsrc. cbn. by destruct (Z.eqb_spec tab 0).
  - intros now message sender s tab Hj Hc Hs Hsrc Htab r. unfold r.
    rewrite update_applied by done. cbn [fst snd].
    eexists. cbn [jobStateCache store].
    split; [apply lookup_insert_eq|].
    split; [apply getJobState_storeJobState|].
    unfold broadcastJobState. cbn [jobIdToSourceTabId jobStateCache store].
    rewrite Hsrc, lookup_insert_eq. cbn. by destruct (Z.eqb_spec tab 0).
  - intros now jid s ev. unfold handleV2StopJob.
    destruct (negb (nonempty jid)); [by intros ?%elem_of_nil|].
    destruct (getJobData jid (store s)) as [job|];
      [|by intros ?%elem_of_nil].
    destruct (truthy (stoppedAt job)); [by intros ?%elem_of_nil|].
    destruct (markJobStopped _ _ _ _); [|by intros ?%elem_of_nil].
    cbn [fst snd]. apply stop_signals_only.
Qed.

Lemma broadcast_after_mutation_witness :
  let r := handleV2ChannelUpdate 3000 (update_msg "J" "csdn") (Some 44)
             sys_started in
  ∃ m, r.1.2 = [JobBroadcast 3 "J"
                  (getJobData "J" (store r.1.1) ≫= channels) m].
Proof.
  intros r. pose proof broadcast_after_mutation as (_ & H & _).
  destruct (H 3000 (update_msg "J" "csdn") (Some 44) sys_started 3)
    as (m & _ & _ & Hm); try (vm_compute; reflexivity).
  - discriminate.
  - exists m. exact Hm.
Defined.

(** C3 as stated fails for RequestStop: stopping the running job [J],
    whose source tab 3 is known, sets [stoppedAt] and answers [{success}],
    and the only messages sent are the stop signals to the two channel
    tabs; no snapshot goes to tab 3. *)
Lemma stop_no_broadcast_counterexample :
  let r := handleV2StopJob 2000 "J" sys_started in
  jobIdToSourceTabId sys_started !! "J" = Some 3
  ∧ r.2 = ok
  ∧ stoppedAt <$> getJobData "J" (store r.1.1) = Some (Some 2000)
  ∧ r.1.2 = [StopSignal 43 "J"; StopSignal 32 "J"].
Proof. by_evaluation. Qed.
End stop_job.

(** * Further properties of the job store *)

Section store_more.
Import Store Orchestrator Samples.

Lemma stateKey_is_state (j : string) :
  startsWith (stateKey j) STATE_KEY_PREFIX = true.
Proof. apply startsWith_app. Qed.

Lemma foreign_key_spec (k : string) :
  foreign_key k = true → (∀ j, k ≠ jobKey j) ∧ (∀ j, k ≠ stateKey j).
Proof.
  unfold foreign_key. rewrite andb_true_iff, !negb_true_iff.
  intros [Hj Hs]. split; intros j ->.
  - by rewrite jobKey_is_job in Hj.
  - by rewrite stateKey_is_state in Hs.
Qed.

(** Writing or deleting a state record does not change which job records
    the store holds. *)
Lemma job_entries_insert_state (st : storage) (jid : string) (v : StoredValue) :
  job_entries (<[stateKey jid := v]> st) ≡ₚ job_entries st.
Proof.
  apply NoDup_Permutation; [apply NoDup_job_entries..|].
  intros [k x]. rewrite !elem_of_job_entries.
  split; intros [Hl Hk]; (split; [|done]).
  - rewrite lookup_insert_ne in Hl; [done|].
    intros <-. by rewrite stateKey_not_job in Hk.
  - rewrite lookup_insert_ne; [done|].
    intros <-. by rewrite stateKey_not_job in Hk.
Qed.

Lemma job_entries_delete_state (st : storage) (jid : string) :
  job_entries (delete (stateKey jid) st) ≡ₚ job_entries st.
Proof.
  apply NoDup_Permutation; [apply NoDup_job_entries..|].
  intros [k x]. rewrite !elem_of_job_entries.
  split; intros [Hl Hk]; (split; [|done]).
  - rewrite lookup_delete_ne in Hl; [done|].
    intros <-. by rewrite stateKey_not_job in Hk.
  - rewrite lookup_delete_ne; [done|].
    intros <-. by rewrite stateKey_not_job in Hk.
Qed.

(** X1: [storeJobState] followed by [getJobState] gives the map back; the
    write leaves every other job's state map and every job record as they
    were, and does not count against the capacity. *)
Theorem state_put_get (jid : string) (m : StoredJobState) (st : storage) :
  getJobState jid (storeJobState jid m st) = Some m
  ∧ (∀ jid', jid' ≠ jid →
       getJobState jid' (storeJobState jid m st) = getJobState jid' st)
  ∧ (∀ jid', getJobData jid' (storeJobState jid m st) = getJobData jid' st)
  ∧ job_count (storeJobState jid m st) = job_count st.
Proof.
  unfold getJobState, getJobData, storeJobState, job_count.
  split; [by rewrite lookup_insert_eq|]. split; [|split].
  - intros jid' Hne. rewrite lookup_insert_ne; [done|].
    intros E. by apply stateKey_inj in E.
  - intros jid'. rewrite lookup_insert_ne; [done|]. apply stateKey_jobKey.
  - by rewrite job_entries_insert_state.
Qed.

(** X2: [deleteJob] removes the job record and the state record of the
    job, leaves the records of every other job in place, lowers the number
    of stored jobs by one when the job was stored, and changes nothing when
    the job has neither record. *)
Theorem deleteJob_spec (jid : string) (st : storage) :
  getJobData jid (deleteJob jid st) = None
  ∧ getJobState jid (deleteJob jid st) = None
  ∧ (∀ jid', jid' ≠ jid →
       getJobData jid' (deleteJob jid st) = getJobData jid' st
       ∧ getJobState jid' (deleteJob jid st) = getJobState jid' st)
  ∧ (is_Some (st !! jobKey jid) →
       job_count st = S (job_count (deleteJob jid st)))
  ∧ (st !! jobKey jid = None → st !! stateKey jid = None →
       deleteJob jid st = st).
Proof.
  unfold deleteJob, storage_remove. cbn [foldr].
  unfold getJobData, getJobState.
  split; [by rewrite lookup_delete_eq|]. split.
  { rewrite lookup_delete_ne by key_neq. by rewrite lookup_delete_eq. }
  split; [|split].
  - intros jid' Hne. by rewrite !lookup_delete_ne by key_neq.
  - intros [v Hv]. unfold job_count at 1.
    rewrite <- (job_entries_delete_state st jid).
    fold (job_count (delete (stateKey jid) st)).
    assert (Hv' : delete (stateKey jid) st !! jobKey jid = Some v).
    { rewrite lookup_delete_ne; [done|]. apply stateKey_jobKey. }
    rewrite <- (insert_delete_id _ _ _ Hv') at 1.
    by rewrite job_count_insert_fresh by apply lookup_delete_eq.
  - intros Hj Hs. rewrite (delete_id st (stateKey jid)) by done.
    by apply delete_id.
Qed.

Lemma expired_keys_length (now : Z) (l : list (string * StoredValue)) :
  length (flat_map (expired_keys_of now) l)
  = (2 * length (List.filter
                   (λ kv, startsWith kv.1 JOB_KEY_PREFIX
                          && is_expired now (createdAt_of kv.2)) l))%nat.
Proof.
  induction l as [|kv l IH]; [done|]. cbn [flat_map List.filter].
  rewrite length_app, IH. unfold expired_keys_of at 1.
  destruct (startsWith kv.1 JOB_KEY_PREFIX
            && is_expired now (createdAt_of kv.2)); cbn [length]; lia.
Qed.

(** X3: the number returned by [cleanExpiredData] is twice the number of
    job records it sweeps (the job key and the state key of each, whether
    or not a state record exists); each swept record is a stored job whose
    [createdAt] is past the TTL; and a returned [0] means that the store is
    unchanged. *)
Theorem sweep_count (now : Z) (st : storage) :
  (cleanExpiredData now st).2 = (2 * length (swept_entries now st))%nat
  ∧ (∀ k v, (k, v) ∈ swept_entries now st →
       ∃ jid j, k = jobKey jid ∧ v = VJob j
              ∧ getJobData jid st = Some j
              ∧ createdAt j ≠ 0 ∧ EXPIRY_TIME < now - createdAt j)
  ∧ ((cleanExpiredData now st).2 = 0%nat → (cleanExpiredData now st).1 = st).
Proof.
  cbn [cleanExpiredData fst snd]. unfold expiredKeys, swept_entries.
  split; [apply expired_keys_length|]. split.
  - intros k v. rewrite list_elem_of_In, filter_In, <- list_elem_of_In.
    rewrite elem_of_map_to_list, andb_true_iff. cbn [fst snd].
    intros (Hl & Hk & He). apply job_key_inv in Hk.
    exists (slice k (String.length JOB_KEY_PREFIX)).
    destruct v as [j| |]; try (unfold is_expired in He; cbn in He; done).
    exists j. split; [done|]. split; [done|].
    split; [apply getJobData_Some; by rewrite <- Hk|].
    by apply is_expired_spec.
  - intros H0. apply length_zero_iff_nil in H0. by rewrite H0.
Qed.

(** X4: a sweep is idempotent: a second sweep at the same time removes
    nothing and returns [0]. *)
Theorem sweep_idempotent (now : Z) (st : storage) :
  cleanExpiredData now (cleanExpiredData now st).1
  = ((cleanExpiredData now st).1, 0%nat).
Proof.
  assert (Hnone : expiredKeys now (cleanExpiredData now st).1 = []).
  { apply elem_of_nil_inv. intros k Hk.
    apply elem_of_expiredKeys in Hk as (jid & (j & Hj & He)%swept_spec & _).
    apply getJobData_Some in Hj. rewrite clean_lookup_job in Hj.
    destruct (swept now st jid) eqn:Hs; [done|].
    apply getJobData_Some in Hj. unfold swept in Hs. rewrite Hj in Hs.
    congruence. }
  unfold cleanExpiredData at 1. by rewrite Hnone.
Qed.

Lemma limit_lookup_Some (st : storage) (k : string) (v : StoredValue) :
  limitStoredJobs st !! k = Some v → st !! k = Some v.
Proof.
  unfold limitStoredJobs. destruct (_ <=? _)%nat; [done|].
  rewrite lookup_storage_remove. by case_decide.
Qed.

Lemma limit_lookup_other (st : storage) (k : string) :
  (∀ jid v, (jobKey jid, v) ∈ evicted st → k ≠ jobKey jid ∧ k ≠ stateKey jid) →
  limitStoredJobs st !! k = st !! k.
Proof.
  intros H. unfold limitStoredJobs. destruct (_ <=? _)%nat; [done|].
  rewrite lookup_storage_remove, decide_False; [done|].
  fold (evicted st). intros (jid & v & Hin & Hk)%elem_of_evicted_keys.
  destruct (H jid v Hin) as [H1 H2]. by destruct Hk.
Qed.

(** X5: a Put (with its sweep and its eviction) only ever removes job and
    state records: a key of [chrome.storage.local] that carries neither
    prefix keeps its value. *)
Theorem put_keeps_foreign_keys (now : Z) (job : PublishJob) (st : storage)
    (k : string) :
  foreign_key k = true →
  storeJobData now job st !! k = st !! k
  ∧ (cleanExpiredData now st).1 !! k = st !! k
  ∧ limitStoredJobs st !! k = st !! k.
Proof.
  intros [Hj Hs]%foreign_key_spec.
  assert (Hclean : ∀ st0, (cleanExpiredData now st0).1 !! k = st0 !! k).
  { intros st0. cbn [cleanExpiredData fst].
    rewrite lookup_storage_remove, decide_False; [done|].
    intros (jid & _ & [E|E])%elem_of_expiredKeys; [by apply Hj in E|].
    by apply Hs in E. }
  assert (Hlimit : ∀ st0, limitStoredJobs st0 !! k = st0 !! k).
  { intros st0. apply limit_lookup_other. intros jid v _. split; auto. }
  split; [|split]; [|apply Hclean|apply Hlimit].
  unfold storeJobData. rewrite Hlimit, Hclean.
  apply lookup_insert_ne. intros E. symmetry in E. by apply Hj in E.
Qed.

Lemma put_keeps_foreign_keys_witness :
  storeJobData 9000 (job_at "K" 9000) store_mixed !! "copilot_settings"
  = Some (VOther "{}").
Proof.
  rewrite (proj1 (put_keeps_foreign_keys 9000 (job_at "K" 9000) store_mixed
                    "copilot_settings" eq_refl)).
  vm_compute; reflexivity.
Defined.
Lemma job_count_insert_le (st : storage) (jid : string) (v : StoredValue) :
  (job_count (<[jobKey jid := v]> st) ≤ S (job_count st))%nat.
Proof.
  destruct (st !! jobKey jid) as [v0|] eqn:E.
  - erewrite job_count_insert_existing by done. lia.
  - by rewrite job_count_insert_fresh.
Qed.

Lemma clean_lookup_Some (now : Z) (st : storage) (k : string) (v : StoredValue) :
  (cleanExpiredData now st).1 !! k = Some v → st !! k = Some v.
Proof.
  cbn [cleanExpiredData fst]. rewrite lookup_storage_remove. by case_decide.
Qed.

(** X6: Put then Get gives the job back when the job is not past its TTL
    and either the store held fewer than 20 jobs or the job is strictly
    newer than every other stored job. *)
Theorem put_get_roundtrip (now : Z) (job : PublishJob) (st : storage) :
  is_expired now (createdAt job) = false →
  (job_count st < MAX_STORED_JOBS)%nat
  ∨ (∀ k v, (k, v) ∈ job_entries st → k ≠ jobKey (jobId job) →
            createdAt_of v < createdAt job) →
  getJobData (jobId job) (storeJobData now job st) = Some job.
Proof.
  intros He Hroom. unfold storeJobData.
  set (st1 := <[jobKey (jobId job) := VJob job]> st).
  set (st2 := (cleanExpiredData now st1).1).
  assert (Hj : getJobData (jobId job) st1 = Some job)
    by (apply getJobData_Some, lookup_insert_eq).
  assert (Hs : swept now st1 (jobId job) = false)
    by (unfold swept; by rewrite Hj).
  assert (H2 : st2 !! jobKey (jobId job) = Some (VJob job)).
  { unfold st2. rewrite clean_lookup_job, Hs. apply lookup_insert_eq. }
  apply getJobData_Some.
  destruct (Nat.le_gt_cases (job_count st2) MAX_STORED_JOBS) as [Hle|Hgt];
    [by rewrite limit_under|].
  rewrite limit_lookup_job by done.
  rewrite decide_False; [done|]. intros Hin.
  apply list_elem_of_fmap in Hin as [[k v] [Hk Hin]]. cbn [fst] in Hk.
  subst k.
  assert (Hv : v = VJob job).
  { assert ((jobKey (jobId job), v) ∈ job_entries st2) as Hin'.
    { rewrite <- retained_evicted. apply elem_of_app. by right. }
    apply elem_of_job_entries in Hin' as [Hl _]. congruence. }
  subst v.
  destruct Hroom as [Hroom|Hnew].
  - assert (job_count st2 ≤ S (job_count st))%nat; [|lia].
    etrans; [apply job_count_remove_le|]. apply job_count_insert_le.
  - assert (Hlen : length (retained st2) = MAX_STORED_JOBS).
    { unfold retained. rewrite length_take, sort_jobs_perm.
      fold (job_count st2). lia. }
    destruct (retained st2) as [|[k r] rest] eqn:Hret; [done|].
    assert (Hr : (k, r) ∈ retained st2) by (rewrite Hret; left).
    pose proof (evicted_oldest _ _ _ Hin Hr) as Hold. cbn in Hold.
    assert (Hjr : (k, r) ∈ job_entries st2).
    { rewrite <- retained_evicted. apply elem_of_app. by left. }
    destruct (retained_or_evicted _ _ _ Hjr) as [[_ Hne]|[_ Hne]].
    + assert (Hk : k ≠ jobKey (jobId job)).
      { intros ->. apply Hne, list_elem_of_fmap.
        by exists (jobKey (jobId job), VJob job). }
      apply elem_of_job_entries in Hjr as [Hl Hp].
      apply clean_lookup_Some in Hl. unfold st1 in Hl.
      rewrite lookup_insert_ne in Hl by done.
      assert (createdAt_of r < createdAt job); [|lia].
      apply (Hnew k); [|done]. by apply elem_of_job_entries.
    + apply Hne, list_elem_of_fmap. by exists (k, r).
Qed.

Lemma put_get_roundtrip_witness :
  getJobData "K" (storeJobData 9000 (job_at "K" 9000) store_mixed)
  = Some (job_at "K" 9000).
Proof.
  apply (put_get_roundtrip 9000 (job_at "K" 9000) store_mixed).
  - reflexivity.
  - left. vm_compute. lia.
Defined.

(** X7: a job that is already past its TTL when it is stored does not
    survive its own Put: the sweep inside [storeJobData] removes the record
    just written, and the state record of that id with it. *)
Theorem put_expired_lost (now : Z) (job : PublishJob) (st : storage) :
  createdAt job ≠ 0 →
  EXPIRY_TIME < now - createdAt job →
  getJobData (jobId job) (storeJobData now job st) = None
  ∧ getJobState (jobId job) (storeJobData now job st) = None.
Proof.
  intros Hc Ht. unfold storeJobData.
  set (st1 := <[jobKey (jobId job) := VJob job]> st).
  assert (Hs : swept now st1 (jobId job) = true).
  { apply swept_spec. exists job.
    split; [apply getJobData_Some, lookup_insert_eq|].
    by apply is_expired_spec. }
  assert (Hnone : ∀ k, (cleanExpiredData now st1).1 !! k = None →
            limitStoredJobs (cleanExpiredData now st1).1 !! k = None).
  { intros k Hk.
    destruct (limitStoredJobs _ !! k) as [v|] eqn:E; [|done].
    apply limit_lookup_Some in E. congruence. }
  unfold getJobData, getJobState.
  rewrite !Hnone; [done|..].
  - by rewrite clean_lookup_state, Hs.
  - by rewrite clean_lookup_job, Hs.
Qed.

Lemma put_expired_lost_witness :
  getJobData "K" (storeJobData (3 * day) (job_at "K" day) store_mixed) = None.
Proof.
  refine (proj1 (put_expired_lost (3 * day) (job_at "K" day) store_mixed _ _)).
  - discriminate.
  - reflexivity.
Defined.

(** X8: a state record whose job record is absent is never collected:
    no sweep removes it, and neither does the Put of another job, however
    old the record is. *)
Theorem orphan_state_survives (now : Z) (job : PublishJob) (st : storage)
    (jid : string) :
  st !! jobKey jid = None →
  (cleanExpiredData now st).1 !! stateKey jid = st !! stateKey jid
  ∧ (jid ≠ jobId job →
       storeJobData now job st !! stateKey jid = st !! stateKey jid).
Proof.
  intros Hno.
  assert (Hsw : ∀ st0, st0 !! jobKey jid = None → swept now st0 jid = false).
  { intros st0 H0. unfold swept, getJobData. by rewrite H0. }
  split; [by rewrite clean_lookup_state, Hsw|].
  intros Hne. unfold storeJobData.
  set (st1 := <[jobKey (jobId job) := VJob job]> st).
  assert (H1 : st1 !! jobKey jid = None).
  { unfold st1. rewrite lookup_insert_ne by key_neq. done. }
  rewrite limit_lookup_other.
  - rewrite clean_lookup_state, Hsw by done.
    unfold st1. apply lookup_insert_ne. key_neq.
  - intros jid' v Hin.
    assert (Hj : (jobKey jid', v) ∈ job_entries (cleanExpiredData now st1).1).
    { rewrite <- retained_evicted. apply elem_of_app. by right. }
    apply elem_of_job_entries in Hj as [Hl _].
    apply clean_lookup_Some in Hl.
    split; [key_neq|]. intros E. apply stateKey_inj in E as ->. congruence.
Qed.

Lemma orphan_state_survives_witness :
  let st := storeJobState "gone" (buildInitialState 1) ∅ in
  storeJobData (3 * day) (job_at "K" (3 * day)) st !! stateKey "gone"
  = st !! stateKey "gone".
Proof.
  intros st.
  refine (proj2 (orphan_state_survives (3 * day) (job_at "K" (3 * day)) st
                   "gone" _) _).
  - vm_compute; reflexivity.
  - discriminate.
Defined.
End store_more.

(** * Further properties of the orchestrator *)

(** ** What a start leaves behind *)

Section spawn_more.
Import Store Orchestrator Samples.

Variable tabs_create : string → bool → TabResult.
Variables (jid : string) (now : Z) (focus : ChannelId).

Local Abbreviation spawn_one := (spawn_one tabs_create jid now focus).
Local Abbreviation run_spawn := (foldl spawn_one).
Local Abbreviation opens c := (tabs_create (entryUrls c) (String.eqb c focus)).

(** The registry entry of a tab is the last channel that opened it. *)
Lemma spawn_ctx_keep (cs : list ChannelId) (acc : Spawned) (tab : Z)
    (c : ChannelId) :
  sp_ctx acc !! tab = Some (jid, c) →
  (∀ c', c' ∈ cs → opens c' = TabCreated (Some tab) → c' = c) →
  sp_ctx (run_spawn acc cs) !! tab = Some (jid, c).
Proof.
  revert acc. induction cs as [|c0 cs IH]; intros acc Hacc Hinj; [done|].
  cbn [foldl]. apply IH; [|intros c' ?; apply Hinj; by right].
  unfold Orchestrator.spawn_one.
  destruct (opens c0) as [[t|]|e] eqn:E; cbn; try done.
  destruct (negb _); cbn; [|done].
  destruct (decide (t = tab)) as [->|Hne].
  - rewrite (Hinj c0) by (done || left). apply lookup_insert_eq.
  - by rewrite lookup_insert_ne.
Qed.

Lemma spawn_ctx_set (cs : list ChannelId) (acc : Spawned) (tab : Z)
    (c : ChannelId) :
  c ∈ cs → opens c = TabCreated (Some tab) → tab ≠ 0 →
  (∀ c', c' ∈ cs → opens c' = TabCreated (Some tab) → c' = c) →
  sp_ctx (run_spawn acc cs) !! tab = Some (jid, c).
Proof.
  intros Hin Hc Htab. revert acc.
  induction cs as [|c0 cs IH]; intros acc Hinj.
  - by apply elem_of_nil in Hin.
  - cbn [foldl]. apply elem_of_cons in Hin as [<-|Hin].
    + apply spawn_ctx_keep; [|intros c' ?; apply Hinj; by right].
      unfold Orchestrator.spawn_one. rewrite Hc. cbn.
      destruct (Z.eqb_spec tab 0); [done|]. cbn. apply lookup_insert_eq.
    + apply IH; [done|]. intros c' ?; apply Hinj; by right.
Qed.

(** A tab that no selected channel opened keeps its registry entry. *)
Lemma spawn_ctx_other (cs : list ChannelId) (acc : Spawned) (tab : Z) :
  (∀ c', c' ∈ cs → opens c' ≠ TabCreated (Some tab)) →
  sp_ctx (run_spawn acc cs) !! tab = sp_ctx acc !! tab.
Proof.
  revert acc. induction cs as [|c0 cs IH]; intros acc Hno; [done|].
  cbn [foldl]. rewrite IH by (intros c' ?; apply Hno; by right).
  unfold Orchestrator.spawn_one.
  destruct (opens c0) as [[t|]|e] eqn:E; cbn; try done.
  destruct (negb _); cbn; [|done].
  apply lookup_insert_ne. intros ->. by apply (Hno c0); [left|].
Qed.

(** The tab recorded for a channel that opened one. *)
Lemma spawn_tab (cs : list ChannelId) (acc : Spawned) (c : ChannelId) (tab : Z) :
  c ∈ cs → is_Some (sp_state acc !! c) →
  opens c = TabCreated (Some tab) → tab ≠ 0 →
  tabId <$> sp_state (run_spawn acc cs) !! c = Some (Some tab).
Proof.
  intros Hin Hsome Hc Htab.
  assert (Hkeep : ∀ cs acc,
    tabId <$> sp_state acc !! c = Some (Some tab) →
    tabId <$> sp_state (run_spawn acc cs) !! c = Some (Some tab)).
  { clear Hin Hsome. intros cs0.
    induction cs0 as [|c0 cs0 IH]; intros acc0 H; [done|].
    cbn [foldl]. apply IH.
    destruct (spawn_one_lookup tabs_create jid now focus acc0 c0 c)
      as [E|(-> & t & prev & Ht & _ & E)]; rewrite E; [done|].
    cbn. congruence. }
  revert acc Hsome. induction cs as [|c0 cs IH]; intros acc Hsome.
  - by apply elem_of_nil in Hin.
  - cbn [foldl]. apply elem_of_cons in Hin as [<-|Hin].
    + apply Hkeep. unfold Orchestrator.spawn_one. rewrite Hc. cbn.
      destruct (Z.eqb_spec tab 0); [done|]. cbn.
      rewrite lookup_alter_eq. by destruct Hsome as [? ->].
    + apply IH; [done|].
      destruct (spawn_one_lookup tabs_create jid now focus acc c0 c)
        as [E|(_ & ? & ? & _ & _ & E)]; rewrite E; done.
Qed.

(** A channel that is not selected keeps its entry. *)
Lemma spawn_unselected (cs : list ChannelId) (acc : Spawned) (c : ChannelId) :
  c ∉ cs → sp_state (run_spawn acc cs) !! c = sp_state acc !! c.
Proof.
  revert acc. induction cs as [|c0 cs IH]; intros acc Hc; [done|].
  apply not_elem_of_cons in Hc as [Hne Hc].
  cbn [foldl]. rewrite IH by done.
  destruct (spawn_one_lookup tabs_create jid now focus acc c0 c)
    as [E|(-> & _)]; done.
Qed.
End spawn_more.

Section after_start.
Import Store Orchestrator Samples.

Lemma storeJobData_room (now : Z) (job : PublishJob) (st : storage) :
  is_expired now (createdAt job) = false →
  (job_count st < MAX_STORED_JOBS)%nat →
  getJobData (jobId job) (storeJobData now job st) = Some job.
Proof.
  intros He Hroom. unfold storeJobData.
  set (st1 := <[jobKey (jobId job) := VJob job]> st).
  assert (Hs : swept now st1 (jobId job) = false).
  { unfold swept, getJobData, st1. by rewrite lookup_insert_eq. }
  rewrite limit_under.
  - apply getJobData_Some. rewrite clean_lookup_job, Hs.
    apply lookup_insert_eq.
  - pose proof (job_count_remove_le (expiredKeys now st1) st1).
    pose proof (job_count_insert_le st (jobId job) (VJob job)).
    cbn [cleanExpiredData fst]. fold st1 in H0. lia.
Qed.

(** A Put never stores, under the job's key, anything but the job put. *)
Lemma storeJobData_own (now : Z) (job j : PublishJob) (st : storage) :
  getJobData (jobId job) (storeJobData now job st) = Some j → j = job.
Proof.
  intros H%getJobData_Some. unfold storeJobData in H.
  apply limit_lookup_Some, clean_lookup_Some in H.
  rewrite lookup_insert_eq in H. congruence.
Qed.

Lemma is_expired_now (now : Z) : is_expired now now = false.
Proof.
  unfold is_expired. rewrite Z.sub_diag.
  destruct (now =? 0); reflexivity.
Qed.

(** The system that a valid start leaves behind, on either outcome. *)
Lemma start_system (tabs_create : string → bool → TabResult) (jid : string)
    (now : Z) (message : StartJobRequest) (sender : option Z) (s : Sys)
    (art : ArticlePayload) :
  valid_article (m_article message) = Some art →
  let sp := spawn_all tabs_create jid now (m_focusChannel message)
              (tabIdToContext s) (buildInitialState now)
              (channelsToRun (m_channels message)) in
  let s' := (handleV2StartJob tabs_create jid now message sender s).1.1 in
  tabIdToContext s' = sp_ctx sp
  ∧ jobStateCache s' = <[jid := sp_state sp]> (jobStateCache s)
  ∧ jobIdToSourceTabId s'
    = (if truthy sender
       then match sender with
            | Some tab => <[jid := tab]> (jobIdToSourceTabId s)
            | None => jobIdToSourceTabId s
            end
       else jobIdToSourceTabId s)
  ∧ (∀ jid', getJobData jid' (store s')
             = getJobData jid'
                 (storeJobData now (job_of_start jid now message sender art)
                    (store s))).
Proof.
  intros Hv sp s'. unfold s', handleV2StartJob. rewrite Hv. cbv zeta.
  fold (job_of_start jid now message sender art). fold sp.
  assert (Hsrc : match sender with
                 | Some tab => if truthy (Some tab)
                               then <[jid := tab]> (jobIdToSourceTabId s)
                               else jobIdToSourceTabId s
                 | None => jobIdToSourceTabId s
                 end
                 = if truthy sender
                   then match sender with
                        | Some tab => <[jid := tab]> (jobIdToSourceTabId s)
                        | None => jobIdToSourceTabId s
                        end
                   else jobIdToSourceTabId s)
    by (by destruct sender).
  destruct (sp_error sp); cbn [fst snd store tabIdToContext jobStateCache
                               jobIdToSourceTabId];
    (split; [done|]); (split; [done|]); (split; [exact Hsrc|]);
    intros jid'; by rewrite !getJobData_storeJobState.
Qed.

(** X9: after a valid start in a store with room for the job, the tab
    opened for a selected channel gets its context: GetContext from that
    tab answers with the job just created (its selected channels,
    [createdAt], no [stoppedAt]) and that channel, whether or not another
    channel's tab failed to open. The tab id must not be shared with
    another selected channel. *)
Theorem start_then_get_context (tabs_create : string → bool → TabResult)
    (jid : string) (now : Z) (message : StartJobRequest) (sender : option Z)
    (s : Sys) (art : ArticlePayload) (c : ChannelId) (tab : Z) :
  valid_article (m_article message) = Some art →
  (job_count (store s) < MAX_STORED_JOBS)%nat →
  c ∈ channelsToRun (m_channels message) →
  tabs_create (entryUrls c) (String.eqb c (m_focusChannel message))
    = TabCreated (Some tab) →
  tab ≠ 0 →
  (∀ c', c' ∈ channelsToRun (m_channels message) →
     tabs_create (entryUrls c') (String.eqb c' (m_focusChannel message))
       = TabCreated (Some tab) → c' = c) →
  handleV2GetContext (Some tab)
    (handleV2StartJob tabs_create jid now message sender s).1.1
  = ContextOk (job_of_start jid now message sender art) c.
Proof.
  intros Hv Hroom Hin Hc Htab Hinj.
  destruct (start_system tabs_create jid now message sender s art Hv)
    as (Hctx & _ & _ & Hjob).
  unfold handleV2GetContext. cbn [truthy].
  destruct (Z.eqb_spec tab 0); [done|]. cbn [negb].
  rewrite Hctx. unfold spawn_all.
  rewrite (spawn_ctx_set tabs_create jid now (m_focusChannel message)
             _ _ tab c) by done.
  cbn [fst snd]. rewrite Hjob.
  rewrite (storeJobData_room now (job_of_start jid now message sender art))
    by (done || apply is_expired_now).
  done.
Qed.

Lemma start_then_get_context_witness :
  handleV2GetContext (Some 32) sys_started
  = ContextOk (job_of_start "J" 1000 (start_msg (Some ["csdn"; "cnblogs"]))
                 (Some 3) art) "cnblogs".
Proof.
  apply (start_then_get_context tabs_ok "J" 1000
           (start_msg (Some ["csdn"; "cnblogs"])) (Some 3) sys0 art
           "cnblogs" 32).
  - reflexivity.
  - vm_compute. lia.
  - vm_compute. right. left.
  - reflexivity.
  - discriminate.
  - intros c'. vm_compute channelsToRun.
    intros [-> | [-> | []%elem_of_nil]%elem_of_cons]%elem_of_cons H;
      [discriminate H|reflexivity].
Defined.

(** X10: GetContext from a tab that no channel of this start opened is
    answered as before the start: a start registers nothing but the tabs
    it opened. *)
Theorem start_registers_only_its_tabs
    (tabs_create : string → bool → TabResult) (jid : string) (now : Z)
    (message : StartJobRequest) (sender : option Z) (s : Sys)
    (art : ArticlePayload) (tab : Z) :
  valid_article (m_article message) = Some art →
  (∀ c, c ∈ channelsToRun (m_channels message) →
     tabs_create (entryUrls c) (String.eqb c (m_focusChannel message))
       ≠ TabCreated (Some tab)) →
  tabIdToContext (handleV2StartJob tabs_create jid now message sender s).1.1
    !! tab = tabIdToContext s !! tab.
Proof.
  intros Hv Hno.
  destruct (start_system tabs_create jid now message sender s art Hv)
    as (Hctx & _). rewrite Hctx. unfold spawn_all.
  by rewrite spawn_ctx_other.
Qed.

Lemma start_registers_only_its_tabs_witness :
  tabIdToContext sys_started !! 99 = None.
Proof.
  change (tabIdToContext sys_started !! 99 = tabIdToContext sys0 !! 99).
  apply (start_registers_only_its_tabs tabs_ok "J" 1000
           (start_msg (Some ["csdn"; "cnblogs"])) (Some 3) sys0 art 99).
  - reflexivity.
  - intros c'. vm_compute channelsToRun.
    intros [-> | [-> | []%elem_of_nil]%elem_of_cons]%elem_of_cons;
      discriminate.
Defined.
End after_start.

(** ** The fan-out of a start *)

Section fan_out.
Import Store Orchestrator Samples.

(** The entry of a selected channel whose tab opened. *)
Lemma spawn_opened (tabs_create : string → bool → TabResult) (jid : string)
    (now : Z) (focus : ChannelId) (cs : list ChannelId) (acc : Spawned)
    (c : ChannelId) (tab : Z) :
  c ∈ cs → is_Some (sp_state acc !! c) →
  tabs_create (entryUrls c) (String.eqb c focus) = TabCreated (Some tab) →
  tab ≠ 0 →
  ∃ st, sp_state (foldl (spawn_one tabs_create jid now focus) acc cs) !! c
        = Some st
      ∧ status st = running ∧ stage st = Some openEntry
      ∧ tabId st = Some tab.
Proof.
  intros Hin Hsome Hc Htab.
  set (Q := λ a : Spawned, ∃ st, sp_state a !! c = Some st
              ∧ status st = running ∧ stage st = Some openEntry
              ∧ tabId st = Some tab).
  assert (Hkeep : ∀ cs0 acc0, Q acc0 →
            Q (foldl (spawn_one tabs_create jid now focus) acc0 cs0)).
  { intros cs0. induction cs0 as [|c0 cs0 IH]; intros acc0 H; [done|].
    cbn [foldl]. apply IH. unfold Q in *.
    destruct (spawn_one_lookup tabs_create jid now focus acc0 c0 c)
      as [E|(-> & t & prev & Ht & _ & E)]; rewrite E; [done|].
    eexists. split; [done|]. cbn. repeat split. congruence. }
  revert acc Hsome. induction cs as [|c0 cs IH]; intros acc Hsome.
  - by apply elem_of_nil in Hin.
  - cbn [foldl]. apply elem_of_cons in Hin as [<-|Hin].
    + apply Hkeep. unfold Q, spawn_one. rewrite Hc. cbn.
      destruct (Z.eqb_spec tab 0); [done|]. cbn.
      rewrite lookup_alter_eq. destruct Hsome as [prev ->]. cbn.
      eexists. split; [done|]. by cbn.
    + apply IH; [done|].
      destruct (spawn_one_lookup tabs_create jid now focus acc c0 c)
        as [E|(_ & ? & ? & _ & _ & E)]; rewrite E; done.
Qed.

(** C10: an omitted or empty channel list selects all ten supported
    channels, whose entry urls are the ten of the table; from a non-empty
    list exactly the supported ids are kept, in order, and the others are
    dropped without an error. A valid start whose tabs all open answers
    with the job id; it requests one tab per selected channel, at the
    channel's entry url and in list order, before its broadcast; the map it
    caches and persists shows every selected channel whose tab got an id as
    [running] at [openEntry] with that tab, and the registry binds that tab
    to the job and the channel (when no other selected channel got the same
    tab id). *)
Theorem start_channel_selection :
  channelsToRun None = ALL_CHANNELS
  ∧ channelsToRun (Some []) = ALL_CHANNELS
  ∧ length ALL_CHANNELS = 10%nat
  ∧ map entryUrls ALL_CHANNELS
    = [ "https://mp.csdn.net/mp_blog/creation/editor";
        "https://cloud.tencent.com/developer/article/write";
        "https://i.cnblogs.com/posts/edit";
        "https://www.oschina.net/blog/write";
        "https://www.woshipm.com/writing";
        "https://note.mowen.cn/editor";
        "https://sspai.com/write";
        "https://baijiahao.baidu.com/builder/rc/edit?type=news&is_from_cms=1";
        "https://mp.toutiao.com/profile_v4/graphic/publish";
        "https://wuxinxuexi.feishu.cn/drive/folder/PyWAfSFwrlMgiydvlHectMn2nSd" ]
  ∧ (∀ c l, channelsToRun (Some (c :: l))
            = List.filter (includes ALL_CHANNELS) (c :: l))
  ∧ (∀ req x, x ∈ channelsToRun req → x ∈ ALL_CHANNELS)
  ∧ (∀ c l x, x ∈ channelsToRun (Some (c :: l)) ↔
              x ∈ c :: l ∧ x ∈ ALL_CHANNELS)
  ∧ (∀ tabs_create jid now message sender s art,
       valid_article (m_article message) = Some art →
       (∀ c, c ∈ channelsToRun (m_channels message) →
          ∃ id, tabs_create (entryUrls c)
                  (String.eqb c (m_focusChannel message)) = TabCreated id) →
       let cs := channelsToRun (m_channels message) in
       let r := handleV2StartJob tabs_create jid now message sender s in
       r.2 = ok_job jid
       ∧ r.1.2 = (map (λ c, TabCreate (entryUrls c)
                              (String.eqb c (m_focusChannel message))) cs
                  ++ broadcastJobState jid r.1.1)%list
       ∧ (∀ c, c ∈ cs →
            TabCreate (entryUrls c) (String.eqb c (m_focusChannel message))
            ∈ r.1.2)
       ∧ ∃ m, jobStateCache r.1.1 !! jid = Some m
            ∧ getJobState jid (store r.1.1) = Some m
            ∧ ∀ c tab, c ∈ cs →
                tabs_create (entryUrls c)
                  (String.eqb c (m_focusChannel message))
                  = TabCreated (Some tab) →
                tab ≠ 0 →
                (∃ st, m !! c = Some st
                     ∧ status st = running ∧ stage st = Some openEntry
                     ∧ tabId st = Some tab)
                ∧ ((∀ c', c' ∈ cs →
                      tabs_create (entryUrls c')
                        (String.eqb c' (m_focusChannel message))
                        = TabCreated (Some tab) → c' = c) →
                   tabIdToContext r.1.1 !! tab = Some (jid, c))).
Proof.
  split; [reflexivity|]. split; [reflexivity|]. split; [reflexivity|].
  split; [reflexivity|]. split; [reflexivity|].
  split; [apply channelsToRun_supported|]. split.
  - intros c l x. unfold channelsToRun.
    rewrite list_elem_of_In, filter_In, <- list_elem_of_In, includes_spec.
    done.
  - intros tabs_create jid now message sender s art Hv Hall cs r.
    destruct (start_result tabs_create jid now message sender s art Hv)
      as [Hcache Hres]. fold r in Hcache, Hres.
    destruct (start_system tabs_create jid now message sender s art Hv)
      as (Hctx & _). fold r in Hctx.
    unfold spawn_all in Hres, Hcache, Hctx.
    rewrite (spawn_error_none tabs_create jid now (m_focusChannel message))
      in Hres by done.
    destruct Hres as (Hr & Hev & Hst).
    split; [done|]. split; [exact Hev|]. split.
    { intros c Hin. rewrite Hev. apply elem_of_app. left.
      unfold spawn_events. apply list_elem_of_fmap. by exists c. }
    eexists. split; [exact Hcache|]. split; [exact Hst|].
    intros c tab Hin Hc Htab. split.
    + apply (spawn_opened tabs_create jid now (m_focusChannel message));
        try done. cbn.
      exists (nowState now c). apply buildInitialState_lookup.
      split; [|done]. by eapply channelsToRun_supported.
    + intros Hinj. rewrite Hctx.
      by apply (spawn_ctx_set tabs_create jid now (m_focusChannel message)).
Qed.

Lemma start_channel_selection_witness :
  let r := handleV2StartJob tabs_ok "J" 1000 (start_msg (Some []))
             (Some 3) sys0 in
  channelsToRun (Some ["weibo"; "csdn"; ""; "cnblogs"]) = ["csdn"; "cnblogs"]
  ∧ r.2 = ok_job "J"
  ∧ TabCreate "https://mp.toutiao.com/profile_v4/graphic/publish" false
    ∈ r.1.2.
Proof.
  intros r. split; [reflexivity|].
  pose proof start_channel_selection as (_ & _ & _ & _ & _ & _ & _ & H).
  destruct (H tabs_ok "J" 1000 (start_msg (Some [])) (Some 3) sys0 art
              eq_refl) as (Hr & _ & Hreq & _).
  - intros c _. by eexists.
  - split; [exact Hr|].
    apply (Hreq "toutiao"). vm_compute.
    do 8 right. left.
Defined.
End fan_out.

(** ** Control requests and reads around a start and a stop *)

Section control.
Import Store Orchestrator Samples.

Lemma supported_nonempty (c : ChannelId) :
  c ∈ ALL_CHANNELS → nonempty c = true.
Proof.
  unfold ALL_CHANNELS. rewrite !elem_of_cons, elem_of_nil.
  intros H. repeat (destruct H as [-> | H]; [reflexivity|]). done.
Qed.

(** A job just started is not stopped, whether or not its record is still
    in the store. *)
Lemma start_not_stopped (tabs_create : string → bool → TabResult)
    (jid : string) (now : Z) (message : StartJobRequest) (sender : option Z)
    (s : Sys) (art : ArticlePayload) :
  valid_article (m_article message) = Some art →
  is_stopped jid
    (store (handleV2StartJob tabs_create jid now message sender s).1.1)
  = false.
Proof.
  intros Hv.
  destruct (start_system tabs_create jid now message sender s art Hv)
    as (_ & _ & _ & Hjob).
  unfold is_stopped. rewrite Hjob.
  destruct (getJobData jid _) as [j|] eqn:E; [|done].
  by apply (storeJobData_own now (job_of_start jid now message sender art))
    in E as ->.
Qed.

(** X11: after a valid start, a Retry or Continue for a selected channel
    whose tab opened is handed to exactly that tab, and the response is
    [{success}] when the delivery succeeds and the delivery error
    otherwise. *)
Theorem control_after_start (tabs_create : string → bool → TabResult)
    (tabs_sendMessage : Z → ControlRequest → option string)
    (jid : string) (now : Z) (message : StartJobRequest) (sender : option Z)
    (s : Sys) (art : ArticlePayload) (c : ChannelId) (tab : Z)
    (kind : ControlKind) :
  valid_article (m_article message) = Some art →
  nonempty jid = true →
  c ∈ channelsToRun (m_channels message) →
  tabs_create (entryUrls c) (String.eqb c (m_focusChannel message))
    = TabCreated (Some tab) →
  tab ≠ 0 →
  let req := {| c_kind := kind; c_jobId := jid; c_channelId := c |} in
  handleV2Control tabs_sendMessage req
    (handleV2StartJob tabs_create jid now message sender s).1.1
  = (Some (tab, req),
     match tabs_sendMessage tab req with
     | None => ok
     | Some e => err e
     end).
Proof.
  intros Hv Hn Hin Hc Htab req.
  destruct (start_system tabs_create jid now message sender s art Hv)
    as (_ & Hcache & _).
  pose proof (channelsToRun_supported _ _ Hin) as Hsup.
  unfold handleV2Control. cbn [c_jobId c_channelId req].
  rewrite Hn, (supported_nonempty c Hsup). cbn [negb orb].
  rewrite (start_not_stopped _ _ _ _ _ _ art Hv).
  rewrite Hcache, lookup_insert_eq. cbn [mbind option_bind].
  pose proof (spawn_tab tabs_create jid now (m_focusChannel message)
                (channelsToRun (m_channels message))
                {| sp_ctx := tabIdToContext s;
                   sp_state := buildInitialState now; sp_error := None |}
                c tab Hin) as Ht.
  unfold spawn_all.
  assert (Hinit : is_Some (buildInitialState now !! c)).
  { exists (nowState now c). by apply buildInitialState_lookup. }
  specialize (Ht Hinit Hc Htab).
  destruct (sp_state _ !! c) as [st|]; [|done].
  cbn in Ht. cbn [mbind option_bind].
  assert (tabId st = Some tab) as -> by congruence.
  cbn [truthy]. destruct (Z.eqb_spec tab 0); [done|]. cbn [negb].
  by destruct (tabs_sendMessage tab _).
Qed.

Lemma control_after_start_witness :
  handleV2Control send_ok (retry_msg "J" "cnblogs") sys_started
  = (Some (32, retry_msg "J" "cnblogs"), ok).
Proof.
  apply (control_after_start tabs_ok send_ok "J" 1000
           (start_msg (Some ["csdn"; "cnblogs"])) (Some 3) sys0 art
           "cnblogs" 32 Retry).
  - reflexivity.
  - reflexivity.
  - vm_compute. right. left.
  - reflexivity.
  - discriminate.
Defined.

(** X12: after a valid start, a Retry or Continue for a channel that was
    not selected is refused with [Channel tab not found] and nothing is
    handed to any tab. *)
Theorem control_unselected_channel
    (tabs_create : string → bool → TabResult)
    (tabs_sendMessage : Z → ControlRequest → option string)
    (jid : string) (now : Z) (message : StartJobRequest) (sender : option Z)
    (s : Sys) (art : ArticlePayload) (c : ChannelId) (kind : ControlKind) :
  valid_article (m_article message) = Some art →
  nonempty jid = true →
  nonempty c = true →
  c ∉ channelsToRun (m_channels message) →
  handleV2Control tabs_sendMessage
    {| c_kind := kind; c_jobId := jid; c_channelId := c |}
    (handleV2StartJob tabs_create jid now message sender s).1.1
  = (None, err "Channel tab not found").
Proof.
  intros Hv Hn Hc Hout.
  destruct (start_system tabs_create jid now message sender s art Hv)
    as (_ & Hcache & _).
  unfold handleV2Control. cbn [c_jobId c_channelId].
  rewrite Hn, Hc. cbn [negb orb].
  rewrite (start_not_stopped _ _ _ _ _ _ art Hv).
  rewrite Hcache, lookup_insert_eq. cbn [mbind option_bind].
  unfold spawn_all. rewrite spawn_unselected by done. cbn [sp_state].
  destruct (buildInitialState now !! c) as [st|] eqn:E; [|done].
  apply buildInitialState_lookup in E as [_ ->]. done.
Qed.

Lemma control_unselected_channel_witness :
  handleV2Control send_ok (retry_msg "J" "toutiao") sys_started
  = (None, err "Channel tab not found").
Proof.
  apply (control_unselected_channel tabs_ok send_ok "J" 1000
           (start_msg (Some ["csdn"; "cnblogs"])) (Some 3) sys0 art
           "toutiao" Retry); try reflexivity.
  vm_compute channelsToRun.
  intros [[=] | [[=] | []%elem_of_nil]%elem_of_cons]%elem_of_cons.
Defined.

(** X13: after a valid start in a store with room for the job, a
    RequestStop sends a stop signal to the tab of every selected channel
    whose tab opened, and answers [{success}]. *)
Theorem stop_after_start (tabs_create : string → bool → TabResult)
    (jid : string) (now now' : Z) (message : StartJobRequest)
    (sender : option Z) (s : Sys) (art : ArticlePayload) (c : ChannelId)
    (tab : Z) :
  valid_article (m_article message) = Some art →
  nonempty jid = true →
  (job_count (store s) < MAX_STORED_JOBS)%nat →
  c ∈ channelsToRun (m_channels message) →
  tabs_create (entryUrls c) (String.eqb c (m_focusChannel message))
    = TabCreated (Some tab) →
  tab ≠ 0 →
  let r := handleV2StopJob now' jid
             (handleV2StartJob tabs_create jid now message sender s).1.1 in
  r.2 = ok ∧ StopSignal tab jid ∈ r.1.2.
Proof.
  intros Hv Hn Hroom Hin Hc Htab r.
  destruct (start_system tabs_create jid now message sender s art Hv)
    as (_ & Hcache & _ & Hjob).
  assert (Hstored : getJobData jid
            (store (handleV2StartJob tabs_create jid now message sender s).1.1)
          = Some (job_of_start jid now message sender art)).
  { rewrite Hjob.
    apply (storeJobData_room now (job_of_start jid now message sender art));
      [apply is_expired_now|done]. }
  unfold r, handleV2StopJob, markJobStopped.
  rewrite Hn, Hstored. cbn [negb stoppedAt job_of_start truthy fst snd].
  split; [done|].
  rewrite Hcache, lookup_insert_eq.
  pose proof (channelsToRun_supported _ _ Hin) as Hsup.
  unfold stop_signals. apply list_elem_of_In, in_flat_map.
  exists c. split; [by apply list_elem_of_In|].
  cbn [mbind option_bind].
  pose proof (spawn_tab tabs_create jid now (m_focusChannel message)
                (channelsToRun (m_channels message))
                {| sp_ctx := tabIdToContext s;
                   sp_state := buildInitialState now; sp_error := None |}
                c tab Hin) as Ht.
  unfold spawn_all.
  assert (Hinit : is_Some (buildInitialState now !! c)).
  { exists (nowState now c). by apply buildInitialState_lookup. }
  specialize (Ht Hinit Hc Htab).
  destruct (sp_state _ !! c) as [st|]; [|done].
  cbn in Ht. cbn [mbind option_bind].
  assert (tabId st = Some tab) as -> by congruence.
  cbn [truthy]. destruct (Z.eqb_spec tab 0); [done|]. by left.
Qed.

Lemma stop_after_start_witness :
  StopSignal 32 "J" ∈ (handleV2StopJob 2000 "J" sys_started).1.2.
Proof.
  refine (proj2 (stop_after_start tabs_ok "J" 1000 2000
                   (start_msg (Some ["csdn"; "cnblogs"])) (Some 3) sys0 art
                   "cnblogs" 32 _ _ _ _ _ _)).
  - reflexivity.
  - reflexivity.
  - vm_compute. lia.
  - vm_compute. right. left.
  - reflexivity.
  - discriminate.
Defined.
End control.

Section after_stop.
Import Store Orchestrator Samples.

(** The outcome of a RequestStop that passes the guards, for a job stored
    under its own id, not past its TTL, in a store within its capacity. *)
Lemma stop_applied (now : Z) (jid : string) (s : Sys) (job : PublishJob) :
  nonempty jid = true →
  getJobData jid (store s) = Some job →
  jobId job = jid →
  truthy (stoppedAt job) = false →
  is_expired now (createdAt job) = false →
  (job_count (store s) ≤ MAX_STORED_JOBS)%nat →
  let st' := storeJobData now (stopped_job job now) (store s) in
  handleV2StopJob now jid s
  = ({| store := st'; tabIdToContext := tabIdToContext s;
        jobIdToSourceTabId := jobIdToSourceTabId s;
        jobStateCache := jobStateCache s |},
     stop_signals jid (match jobStateCache s !! jid with
                       | Some m => Some m
                       | None => getJobState jid st'
                       end), ok)
  ∧ getJobData jid st' = Some (stopped_job job now)
  ∧ st' !! stateKey jid = store s !! stateKey jid.
Proof.
  intros Hn Hj Hid Hns He Hc st'. split.
  - unfold handleV2StopJob, markJobStopped. by rewrite Hn, Hj, Hns.
  - apply getJobData_Some in Hj. rewrite <- Hid in Hj |- *.
    by apply (storeJobData_keeps now (stopped_job job now) (store s)
                (VJob job)).
Qed.

(** X14: once a RequestStop has gone through, every Retry or Continue for
    the job is refused with [Job has been stopped] and nothing is handed
    to any tab, whatever channel it names. *)
Theorem stop_then_control
    (tabs_sendMessage : Z → ControlRequest → option string)
    (now : Z) (jid : string) (s : Sys) (job : PublishJob)
    (c : ChannelId) (kind : ControlKind) :
  nonempty jid = true →
  nonempty c = true →
  getJobData jid (store s) = Some job →
  jobId job = jid →
  truthy (stoppedAt job) = false →
  now ≠ 0 →
  is_expired now (createdAt job) = false →
  (job_count (store s) ≤ MAX_STORED_JOBS)%nat →
  handleV2Control tabs_sendMessage
    {| c_kind := kind; c_jobId := jid; c_channelId := c |}
    (handleV2StopJob now jid s).1.1
  = (None, err "Job has been stopped").
Proof.
  intros Hn Hcn Hj Hid Hns Hnow He Hc.
  destruct (stop_applied now jid s job Hn Hj Hid Hns He Hc) as (-> & Hst & _).
  unfold handleV2Control, is_stopped. cbn [fst c_jobId c_channelId store].
  rewrite Hn, Hcn, Hst. cbn. by destruct (Z.eqb_spec now 0).
Qed.

Lemma stop_then_control_witness :
  handleV2Control send_ok (retry_msg "J" "cnblogs")
    (handleV2StopJob 2000 "J" sys_started).1.1
  = (None, err "Job has been stopped").
Proof.
  apply (stop_then_control send_ok 2000 "J" sys_started
           (job_of_start "J" 1000 (start_msg (Some ["csdn"; "cnblogs"]))
              (Some 3) art) "cnblogs" Retry);
    try (vm_compute; reflexivity).
  - discriminate.
  - vm_compute. lia.
Defined.

(** X15: reads stay valid after a stop: GetContext from a registered tab
    of the stopped job still answers with the job, now carrying
    [stoppedAt], which is how a worker that asks again learns of the
    stop. *)
Theorem stop_then_get_context (now : Z) (jid : string) (s : Sys)
    (job : PublishJob) (tab : Z) (c : ChannelId) :
  nonempty jid = true →
  getJobData jid (store s) = Some job →
  jobId job = jid →
  truthy (stoppedAt job) = false →
  is_expired now (createdAt job) = false →
  (job_count (store s) ≤ MAX_STORED_JOBS)%nat →
  tab ≠ 0 →
  tabIdToContext s !! tab = Some (jid, c) →
  handleV2GetContext (Some tab) (handleV2StopJob now jid s).1.1
  = ContextOk (stopped_job job now) c.
Proof.
  intros Hn Hj Hid Hns He Hc Htab Hctx.
  destruct (stop_applied now jid s job Hn Hj Hid Hns He Hc) as (-> & Hst & _).
  unfold handleV2GetContext. cbn [fst truthy tabIdToContext store].
  destruct (Z.eqb_spec tab 0); [done|]. cbn [negb].
  rewrite Hctx. cbn [fst snd]. by rewrite Hst.
Qed.

Lemma stop_then_get_context_witness :
  handleV2GetContext (Some 32) (handleV2StopJob 2000 "J" sys_started).1.1
  = ContextOk
      (stopped_job (job_of_start "J" 1000
                      (start_msg (Some ["csdn"; "cnblogs"])) (Some 3) art)
         2000) "cnblogs".
Proof.
  apply (stop_then_get_context 2000 "J" sys_started
           (job_of_start "J" 1000 (start_msg (Some ["csdn"; "cnblogs"]))
              (Some 3) art) 32 "cnblogs");
    try (vm_compute; reflexivity).
  - vm_compute. lia.
  - discriminate.
Defined.

(** X16: a RequestStop that goes through leaves the cached state maps, the
    stopped job's persisted state map and both registries as they were
    before the stop, and keeps the record and the state map of every other
    stored job that is not past its TTL. (The Put inside the stop sweeps
    the jobs that are past their TTL.) *)
Theorem stop_keeps_channel_states (now : Z) (jid : string) (s : Sys)
    (job : PublishJob) :
  nonempty jid = true →
  getJobData jid (store s) = Some job →
  jobId job = jid →
  truthy (stoppedAt job) = false →
  is_expired now (createdAt job) = false →
  (job_count (store s) ≤ MAX_STORED_JOBS)%nat →
  let s' := (handleV2StopJob now jid s).1.1 in
  jobStateCache s' = jobStateCache s
  ∧ getJobState jid (store s') = getJobState jid (store s)
  ∧ tabIdToContext s' = tabIdToContext s
  ∧ jobIdToSourceTabId s' = jobIdToSourceTabId s
  ∧ (∀ jid' j', jid' ≠ jid →
       getJobData jid' (store s) = Some j' →
       is_expired now (createdAt j') = false →
       getJobData jid' (store s') = Some j'
       ∧ getJobState jid' (store s') = getJobState jid' (store s)).
Proof.
  intros Hn Hj Hid Hns He Hc s'. unfold s'.
  destruct (stop_applied now jid s job Hn Hj Hid Hns He Hc) as (-> & _ & Hst).
  cbn [fst jobStateCache store tabIdToContext jobIdToSourceTabId].
  split; [done|]. split; [unfold getJobState; by rewrite Hst|].
  split; [done|]. split; [done|].
  intros jid' j' Hne Hj' He'. unfold storeJobData.
  set (st1 := <[jobKey (jobId (stopped_job job now))
                 := VJob (stopped_job job now)]> (store s)).
  assert (Hk : jobKey (jobId (stopped_job job now)) = jobKey jid)
    by (cbn [jobId stopped_job]; by rewrite Hid).
  assert (H1 : getJobData jid' st1 = Some j').
  { apply getJobData_Some. unfold st1. rewrite Hk.
    rewrite lookup_insert_ne by key_neq. by apply getJobData_Some. }
  assert (Hs : swept now st1 jid' = false)
    by (unfold swept; by rewrite H1).
  rewrite limit_under.
  - unfold getJobState. rewrite getJobData_Some.
    rewrite clean_lookup_job, clean_lookup_state, Hs.
    split; [by apply getJobData_Some|].
    unfold st1. by rewrite lookup_insert_ne by key_neq.
  - etrans; [apply job_count_remove_le|].
    unfold st1. rewrite Hk. apply getJobData_Some in Hj.
    by erewrite job_count_insert_existing.
Qed.

Lemma stop_keeps_channel_states_witness :
  getJobState "J" (store (handleV2StopJob 2000 "J" sys_started).1.1)
  = getJobState "J" (store sys_started).
Proof.
  refine (proj1 (proj2 (stop_keeps_channel_states 2000 "J" sys_started
    (job_of_start "J" 1000 (start_msg (Some ["csdn"; "cnblogs"]))
       (Some 3) art) _ _ _ _ _ _))); try (vm_compute; reflexivity).
  vm_compute. lia.
Defined.

(** X17: once a RequestStop has gone through, every later ChannelUpdate
    for the job, from any tab and with any patch, is acknowledged and
    discarded: the system and the messages sent are those of no update at
    all. *)
Theorem stop_then_update (now now' : Z) (jid : string) (s : Sys)
    (job : PublishJob) (message : ChannelUpdate) (sender : option Z) :
  nonempty jid = true →
  u_jobId message = jid →
  nonempty (u_channelId message) = true →
  getJobData jid (store s) = Some job →
  jobId job = jid →
  truthy (stoppedAt job) = false →
  now ≠ 0 →
  is_expired now (createdAt job) = false →
  (job_count (store s) ≤ MAX_STORED_JOBS)%nat →
  let s' := (handleV2StopJob now jid s).1.1 in
  handleV2ChannelUpdate now' message sender s' = (s', [], ok).
Proof.
  intros Hn Hm Hcn Hj Hid Hns Hnow He Hc s'. unfold s'.
  destruct (stop_applied now jid s job Hn Hj Hid Hns He Hc) as (-> & Hst & _).
  unfold handleV2ChannelUpdate, is_stopped. cbn [fst store].
  rewrite Hm, Hn, Hcn, Hst. cbn. by destruct (Z.eqb_spec now 0).
Qed.

Lemma stop_then_update_witness :
  let s' := (handleV2StopJob 2000 "J" sys_started).1.1 in
  handleV2ChannelUpdate 3000 (update_msg "J" "cnblogs") (Some 32) s'
  = (s', [], ok).
Proof.
  apply (stop_then_update 2000 3000 "J" sys_started
           (job_of_start "J" 1000 (start_msg (Some ["csdn"; "cnblogs"]))
              (Some 3) art) (update_msg "J" "cnblogs") (Some 32));
    try (vm_compute; reflexivity).
  - discriminate.
  - vm_compute. lia.
Defined.
End after_stop.

(** ** Sequences of channel updates *)

Section updates.
Import Store Orchestrator Samples.

Lemma is_stopped_storeJobState (jid jid' : string) (m : StoredJobState)
    (st : storage) :
  is_stopped jid (storeJobState jid' m st) = is_stopped jid st.
Proof. unfold is_stopped. by rewrite getJobData_storeJobState. Qed.

Lemma or_else_idem (a b : option Z) : or_else a (or_else a b) = or_else a b.
Proof. unfold or_else. by destruct (truthy a) eqn:E; rewrite ?E. Qed.

(** Merging the same patch again changes nothing. *)
Lemma merge_state_idem (prev : ChannelRuntimeState) (patch : ChannelPatch)
    (c : ChannelId) (now : Z) (sender : option Z) :
  merge_state (merge_state prev patch c now sender) patch c now sender
  = merge_state prev patch c now sender.
Proof.
  unfold merge_state. cbn. rewrite or_else_idem.
  destruct patch as [? [?|] [?|] [?|] [?|] [?|] ? ?]; reflexivity.
Qed.

(** X18: applying the same ChannelUpdate twice (same clock reading, same
    sending tab) is the same as applying it once: the second run leaves
    the system as the first left it, sends the same snapshot and answers
    [{success}]. *)
Theorem update_twice (now : Z) (message : ChannelUpdate) (sender : option Z)
    (s : Sys) :
  nonempty (u_jobId message) = true →
  nonempty (u_channelId message) = true →
  is_stopped (u_jobId message) (store s) = false →
  handleV2ChannelUpdate now message sender
    (handleV2ChannelUpdate now message sender s).1.1
  = handleV2ChannelUpdate now message sender s.
Proof.
  intros Hj Hc Hs.
  rewrite (update_applied now message sender s) by done. cbn [fst].
  set (c := u_channelId message). set (jid := u_jobId message).
  set (patch := default empty_patch (u_patch message)).
  set (cur := current_state now jid s).
  set (next := merge_state (default (nowState now c) (cur !! c)) patch c
                 now sender).
  set (m := <[c := next]> cur).
  set (s1 := {| store := storeJobState jid m (store s);
                tabIdToContext := tabIdToContext s;
                jobIdToSourceTabId := jobIdToSourceTabId s;
                jobStateCache := <[jid := m]> (jobStateCache s) |}).
  rewrite (update_applied now message sender s1)
    by (done || by (cbn [store s1]; rewrite is_stopped_storeJobState)).
  fold c jid patch.
  assert (Hcur : current_state now jid s1 = m).
  { unfold current_state, s1. cbn [jobStateCache]. by rewrite lookup_insert_eq. }
  rewrite Hcur.
  assert (Hnext : merge_state (default (nowState now c) (m !! c)) patch c
                    now sender = next).
  { unfold m. rewrite lookup_insert_eq. cbn [default].
    apply merge_state_idem. }
  rewrite Hnext.
  assert (Hm : <[c := next]> m = m) by (unfold m; apply insert_insert_eq).
  rewrite Hm.
  assert (Hs1 : {| store := storeJobState jid m (store s1);
                   tabIdToContext := tabIdToContext s1;
                   jobIdToSourceTabId := jobIdToSourceTabId s1;
                   jobStateCache := <[jid := m]> (jobStateCache s1) |} = s1).
  { unfold s1. cbn [store tabIdToContext jobIdToSourceTabId jobStateCache].
    unfold storeJobState. by rewrite !insert_insert_eq. }
  by rewrite Hs1.
Qed.

Lemma update_twice_witness :
  handleV2ChannelUpdate 3000 (update_msg "J" "csdn") (Some 44)
    (handleV2ChannelUpdate 3000 (update_msg "J" "csdn") (Some 44)
       sys_started).1.1
  = handleV2ChannelUpdate 3000 (update_msg "J" "csdn") (Some 44) sys_started.
Proof.
  apply (update_twice 3000 (update_msg "J" "csdn") (Some 44) sys_started);
    vm_compute; reflexivity.
Defined.

(** X19: a ChannelUpdate, whatever its outcome, stays inside its job: the
    cached and the persisted state map of every other job, every job
    record, the number of stored jobs and both registries are
    unchanged. *)
Theorem update_job_local (now : Z) (message : ChannelUpdate)
    (sender : option Z) (s : Sys) :
  let s' := (handleV2ChannelUpdate now message sender s).1.1 in
  (∀ jid', jid' ≠ u_jobId message →
     jobStateCache s' !! jid' = jobStateCache s !! jid'
     ∧ getJobState jid' (store s') = getJobState jid' (store s))
  ∧ (∀ jid', getJobData jid' (store s') = getJobData jid' (store s))
  ∧ job_count (store s') = job_count (store s)
  ∧ tabIdToContext s' = tabIdToContext s
  ∧ jobIdToSourceTabId s' = jobIdToSourceTabId s.
Proof.
  intros s'. unfold s', handleV2ChannelUpdate.
  destruct (negb _ || negb _); [done|].
  destruct (is_stopped _ _); [done|].
  cbn [fst store jobStateCache tabIdToContext jobIdToSourceTabId].
  split; [|split; [|split; [|by split]]].
  - intros jid' Hne. rewrite lookup_insert_ne by done. split; [done|].
    unfold getJobState, storeJobState. rewrite lookup_insert_ne; [done|].
    key_neq.
  - intros jid'. apply getJobData_storeJobState.
  - unfold job_count, storeJobState. by rewrite job_entries_insert_state.
Qed.

(** X20: an applied ChannelUpdate for a supported channel adds at most
    that channel to the keys of the job's state map and removes none; on a
    map that holds the ten supported channels, as every start builds it,
    the map cached and persisted afterwards still holds exactly those
    ten. *)
Theorem update_dom (now : Z) (message : ChannelUpdate) (sender : option Z)
    (s : Sys) :
  nonempty (u_jobId message) = true →
  u_channelId message ∈ ALL_CHANNELS →
  is_stopped (u_jobId message) (store s) = false →
  let s' := (handleV2ChannelUpdate now message sender s).1.1 in
  ∃ m, jobStateCache s' !! u_jobId message = Some m
     ∧ getJobState (u_jobId message) (store s') = Some m
     ∧ dom m = {[u_channelId message]}
               ∪ dom (current_state now (u_jobId message) s)
     ∧ (dom (current_state now (u_jobId message) s)
          = list_to_set ALL_CHANNELS →
        dom m = list_to_set ALL_CHANNELS ∧ size m = 10%nat).
Proof.
  intros Hj Hsup Hs s'. unfold s'.
  rewrite update_applied by (done || by apply supported_nonempty).
  cbn [fst store jobStateCache]. eexists.
  split; [apply lookup_insert_eq|].
  split; [apply getJobState_storeJobState|].
  split; [apply dom_insert_L|].
  intros Hdom.
  assert (Hd : dom (<[u_channelId message :=
                       merge_state
                         (default (nowState now (u_channelId message))
                            (current_state now (u_jobId message) s
                               !! u_channelId message))
                         (default empty_patch (u_patch message))
                         (u_channelId message) now sender]>
                     (current_state now (u_jobId message) s))
               = list_to_set ALL_CHANNELS).
  { rewrite dom_insert_L, Hdom. apply set_eq. intros x.
    rewrite elem_of_union, elem_of_singleton, elem_of_list_to_set.
    split; [intros [-> | ?]; done|by right]. }
  split; [exact Hd|]. by rewrite <- size_dom, Hd.
Qed.

Lemma update_dom_witness :
  ∃ m, jobStateCache
         (handleV2ChannelUpdate 3000 (update_msg "gone" "csdn") (Some 44)
            sys0).1.1 !! "gone" = Some m
     ∧ size m = 10%nat.
Proof.
  destruct (update_dom 3000 (update_msg "gone" "csdn") (Some 44) sys0)
    as (m & Hm & _ & _ & Hsize).
  - reflexivity.
  - cbn [u_channelId update_msg]. left.
  - vm_compute; reflexivity.
  - exists m. split; [exact Hm|]. apply Hsize.
    change (dom (buildInitialState 3000) = list_to_set ALL_CHANNELS).
    apply buildInitialState_dom.
Defined.





(** X22: updates of one supported channel are merged in arrival order:
    after two applied updates the channel's entry is the second patch merged over
    the first merged over the previous entry; a status carried by the
    second patch wins, and a status carried only by the first stays; the
    entry's [updatedAt] is the time of the second update. *)
Theorem update_last_write_wins (n1 n2 : Z) (u1 u2 : ChannelUpdate)
    (sd1 sd2 : option Z) (s : Sys) :
  u_jobId u2 = u_jobId u1 →
  u_channelId u2 = u_channelId u1 →
  nonempty (u_jobId u1) = true →
  u_channelId u1 ∈ ALL_CHANNELS →
  is_stopped (u_jobId u1) (store s) = false →
  let jid := u_jobId u1 in
  let c := u_channelId u1 in
  let p1 := default empty_patch (u_patch u1) in
  let p2 := default empty_patch (u_patch u2) in
  let prev := default (nowState n1 c) (current_state n1 jid s !! c) in
  let s2 := (handleV2ChannelUpdate n2 u2 sd2
               (handleV2ChannelUpdate n1 u1 sd1 s).1.1).1.1 in
  ∃ m e, jobStateCache s2 !! jid = Some m
     ∧ getJobState jid (store s2) = Some m
     ∧ m !! c = Some e
     ∧ e = merge_state (merge_state prev p1 c n1 sd1) p2 c n2 sd2
     ∧ updatedAt e = n2
     ∧ (∀ x, p_status p2 = Some x → status e = x)
     ∧ (∀ x, p_status p2 = None → p_status p1 = Some x → status e = x).
Proof.
  intros Hjid Hcid Hj Hsup Hs jid c p1 p2 prev s2. unfold s2.
  pose proof (supported_nonempty _ Hsup) as Hc.
  rewrite (update_applied n1 u1 sd1 s) by done. cbn [fst].
  fold jid c p1 prev.
  set (m1 := <[c := merge_state prev p1 c n1 sd1]> (current_state n1 jid s)).
  set (s1 := {| store := storeJobState jid m1 (store s);
                tabIdToContext := tabIdToContext s;
                jobIdToSourceTabId := jobIdToSourceTabId s;
                jobStateCache := <[jid := m1]> (jobStateCache s) |}).
  rewrite (update_applied n2 u2 sd2 s1);
    rewrite ?Hjid, ?Hcid; try done;
    [|by (cbn [store s1]; rewrite is_stopped_storeJobState)].
  cbn [fst store jobStateCache]. fold jid c p2.
  assert (Hcur : current_state n2 jid s1 = m1).
  { unfold current_state, s1. cbn [jobStateCache]. by rewrite lookup_insert_eq. }
  rewrite Hcur.
  assert (Hm1 : m1 !! c = Some (merge_state prev p1 c n1 sd1))
    by apply lookup_insert_eq.
  rewrite Hm1. cbn [default].
  eexists _, _. split; [apply lookup_insert_eq|].
  split; [apply getJobState_storeJobState|].
  split; [apply lookup_insert_eq|]. split; [reflexivity|].
  split; [reflexivity|]. cbn [status merge_state]. split.
  - intros x H2. by rewrite H2.
  - intros x H2 H1. rewrite H2.
    change (default (status prev) (p_status p1) = x). by rewrite H1.
Qed.

Lemma update_last_write_wins_witness :
  let s2 := (handleV2ChannelUpdate 4000
               (update_with "J" "csdn" waiting_patch) (Some 43)
               (handleV2ChannelUpdate 3000 (update_msg "J" "csdn") (Some 43)
                  sys_started).1.1).1.1 in
  ∃ m e, jobStateCache s2 !! "J" = Some m ∧ m !! "csdn" = Some e
       ∧ status e = waiting_user.
Proof.
  intros s2.
  destruct (update_last_write_wins 3000 4000 (update_msg "J" "csdn")
              (update_with "J" "csdn" waiting_patch) (Some 43) (Some 43)
              sys_started) as (m & e & Hm & _ & He & _ & _ & Hst & _);
    try (vm_compute; reflexivity); [cbn [u_channelId update_msg]; left|].
  exists m, e. split; [exact Hm|]. split; [exact He|].
  by apply Hst.
Defined.

(** X23: an update or a stop that answers with an error has done nothing:
    the system is the one before the message and nothing was sent. (A
    failed start, in contrast, leaves the job stored and its tabs
    registered.) *)
Theorem failed_update_or_stop_changes_nothing (now : Z) (s : Sys) :
  (∀ message sender,
     r_success (handleV2ChannelUpdate now message sender s).2 = false →
     (handleV2ChannelUpdate now message sender s).1 = (s, []))
  ∧ (∀ jid,
       r_success (handleV2StopJob now jid s).2 = false →
       (handleV2StopJob now jid s).1 = (s, [])).
Proof.
  split.
  - intros message sender. unfold handleV2ChannelUpdate.
    destruct (negb _ || negb _); [done|].
    destruct (is_stopped _ _); done.
  - intros jid. unfold handleV2StopJob.
    destruct (negb _); [done|].
    destruct (getJobData jid (store s)) as [job|]; [|done].
    destruct (truthy _); [done|].
    destruct (markJobStopped _ _ _ _); done.
Qed.
End updates.

(** ** Edge cases of a start *)

Section start_edges.
Import Store Orchestrator Samples.

(** X24: a start sent from a context without a tab id, for a job id with
    no registered source tab, never yields a broadcast: the start only
    requests the channel tabs, and every later ChannelUpdate for the job
    sends nothing. *)
Theorem start_without_source (tabs_create : string → bool → TabResult)
    (jid : string) (now : Z) (message : StartJobRequest) (sender : option Z)
    (s : Sys) (art : ArticlePayload) :
  valid_article (m_article message) = Some art →
  truthy sender = false →
  jobIdToSourceTabId s !! jid = None →
  let r := handleV2StartJob tabs_create jid now message sender s in
  r.1.2 = spawn_events (m_focusChannel message)
            (channelsToRun (m_channels message))
  ∧ ∀ now' update sender',
      u_jobId update = jid →
      (handleV2ChannelUpdate now' update sender' r.1.1).1.2 = [].
Proof.
  intros Hv Hsender Hsrc r.
  destruct (start_system tabs_create jid now message sender s art Hv)
    as (_ & _ & Hs & _). fold r in Hs. rewrite Hsender in Hs.
  assert (Hnone : jobIdToSourceTabId r.1.1 !! jid = None) by by rewrite Hs.
  split.
  - destruct (start_result tabs_create jid now message sender s art Hv)
      as [_ Hres]. fold r in Hres.
    destruct (sp_error _); [by destruct Hres as (_ & ? & _)|].
    destruct Hres as (_ & -> & _).
    unfold broadcastJobState. rewrite Hnone. apply app_nil_r.
  - intros now' update sender' Hu. unfold handleV2ChannelUpdate.
    destruct (negb _ || negb _); [done|].
    destruct (is_stopped _ _); [done|]. cbn [fst snd].
    unfold broadcastJobState. cbn [jobIdToSourceTabId].
    by rewrite Hu, Hnone.
Qed.

Lemma start_without_source_witness :
  (handleV2StartJob tabs_ok "J" 1000 (start_msg (Some ["csdn"])) None
     sys0).1.2
  = [TabCreate (entryUrls "csdn") true].
Proof.
  exact (proj1 (start_without_source tabs_ok "J" 1000
                  (start_msg (Some ["csdn"])) None sys0 art
                  eq_refl eq_refl eq_refl)).
Defined.

(** X25: a start whose article is missing, or lacks a title, a content or
    a source url, is refused with the validation error before anything
    happens: nothing is stored, no tab is requested, nothing is sent. *)
Theorem start_rejects_invalid_article
    (tabs_create : string → bool → TabResult) (jid : string) (now : Z)
    (message : StartJobRequest) (sender : option Z) (s : Sys) :
  m_article message = None
  ∨ (∃ a, m_article message = Some a
        ∧ (title a = "" ∨ contentHtml a = "" ∨ sourceUrl a = "")) →
  handleV2StartJob tabs_create jid now message sender s
  = (s, [], err "Missing required fields: title/contentHtml/sourceUrl").
Proof.
  intros H. unfold handleV2StartJob.
  assert (valid_article (m_article message) = None) as ->; [|done].
  destruct H as [-> | (a & -> & H)]; [done|].
  unfold valid_article.
  destruct H as [-> | [-> | ->]]; cbn;
    rewrite ?andb_false_r; reflexivity.
Qed.

Lemma start_rejects_invalid_article_witness :
  handleV2StartJob tabs_ok "J" 1000
    {| m_action := draft; m_focusChannel := "csdn"; m_channels := None;
       m_article := Some {| title := "T"; contentHtml := "";
                            sourceUrl := "https://x"; author := None;
                            publishTime := None; coverUrl := None |} |}
    (Some 3) sys0
  = (sys0, [], err "Missing required fields: title/contentHtml/sourceUrl").
Proof.
  apply start_rejects_invalid_article. right. eexists. split; [reflexivity|].
  right. left. reflexivity.
Defined.
End start_edges.
